(** * Solat Qada Tracker: the weekly ledger, its reset cycle and its sync rules

    A shallow embedding of the tracker's [App] component (three generations
    of the same file) and of [firebase.js].

    - JavaScript objects used as dictionaries ([prayers], [todayInput], the
      Firestore collection) are [gmap string _]; a missing key is
      [undefined].
    - A counters object [{ totalQada, weeklyTarget, completedThisWeek }] is a
      record whose fields are JavaScript numbers restricted to the integers,
      plus [undefined] (field absent, as after spreading [undefined]) and
      [NaN] (arithmetic on [undefined]).  Integers are exact ([Z]); the
      rounding of doubles beyond 2^53 is outside the model, and the
      theorems that compute with counts assume them within the safe
      integers, where the arithmetic of the code is exact.
    - [trim], [toLowerCase] and [length] are those of the code on ASCII
      text; the theorems that depend on what they return assume the
      username and the PIN to be ASCII.
    - A date is its number of milliseconds since the epoch ([Z]); the ISO
      string of a valid date determines it and is determined by it.
      [toISOString().slice(0, 10)] is the UTC calendar day, represented by
      its day number.
    - React state, [localStorage], the Firestore collection and the record
      of calls made to the e-mail service are the fields of one [World]
      record; every handler and effect is a function on it.  The clock and
      the outcome of a network call are arguments.  A remote call and the
      callback that follows it are one step; the promise of [emailjs.send]
      is settled by a step of its own.
    - State that only drives the display (the loading spinner, the
      register/login toggle, the edit buttons) is left out.
*)

From Stdlib Require Import ZArith Lia Ascii String.
From stdpp Require Import base gmap strings pretty list fin_maps.

Open Scope Z_scope.

#[local] Set Warnings "-clear-no-such-hyp".

(** ** JavaScript numbers, as far as the component uses them *)

Inductive jsnum : Type :=
| JUndef
| JNaN
| JNum (z : Z).

#[global] Instance jsnum_eq_dec : EqDecision jsnum.
Proof. solve_decision. Defined.

(** [a - b] on a field that may be missing and an integer.  The difference
    is the exact one: it is the double the code computes when it is a safe
    integer, and it has its sign in any case. *)
Definition jsSub (a : jsnum) (b : Z) : jsnum :=
  match a with
  | JNum x => JNum (x - b)
  | _ => JNaN
  end.

(** [a + b], same operands; the exact sum, which is the double the code
    computes when it is a safe integer. *)
Definition jsAdd (a : jsnum) (b : Z) : jsnum :=
  match a with
  | JNum x => JNum (x + b)
  | _ => JNaN
  end.

(** [Math.max(0, a)]: [NaN] is contagious. *)
Definition jsMax0 (a : jsnum) : jsnum :=
  match a with
  | JNum x => JNum (Z.max 0 x)
  | _ => JNaN
  end.

(** *** [parseInt] with no radix, on ASCII input

    The value is the exact one; it is the double the code gets when it is
    a safe integer, and it has its sign in any case. *)

Definition isWhiteSpace (c : ascii) : bool :=
  let n := Z.of_N (N_of_ascii c) in
  ((9 <=? n) && (n <=? 13)) || (n =? 32).

Fixpoint skipWhiteSpace (s : string) : string :=
  match s with
  | String c s' => if isWhiteSpace c then skipWhiteSpace s' else s
  | EmptyString => s
  end.

Definition digitValue (c : ascii) : option Z :=
  let n := Z.of_N (N_of_ascii c) in
  if (48 <=? n) && (n <=? 57) then Some (n - 48)
  else if (97 <=? n) && (n <=? 122) then Some (n - 87)
  else if (65 <=? n) && (n <=? 90) then Some (n - 55)
  else None.

(** The longest prefix of radix-[R] digits; [acc] is [None] until a digit
    has been read. *)
Fixpoint parseDigits (R : Z) (s : string) (acc : option Z) : option Z :=
  match s with
  | String c s' =>
      match digitValue c with
      | Some d =>
          if d <? R then parseDigits R s' (Some (R * default 0 acc + d))
          else acc
      | None => acc
      end
  | EmptyString => acc
  end.

Definition parseInt (s : string) : jsnum :=
  let s1 := skipWhiteSpace s in
  let '(sign, s2) :=
    match s1 with
    | String "-" r => (-1, r)
    | String "+" r => (1, r)
    | _ => (1, s1)
    end in
  let '(R, s3) :=
    match s2 with
    | String "0" (String "x" r) => (16, r)
    | String "0" (String "X" r) => (16, r)
    | _ => (10, s2)
    end in
  match parseDigits R s3 None with
  | Some m => JNum (sign * m)
  | None => JNaN
  end.

(** [parseInt(v)] where [v] may be [undefined] (a missing dictionary key):
    the argument is first turned into the string "undefined". *)
Definition parseIntOf (v : option string) : jsnum :=
  match v with
  | Some s => parseInt s
  | None => JNaN
  end.

(** [Math.max(0, parseInt(v) || 0)]: [NaN] and [0] are falsy. *)
Definition clampInput (v : option string) : Z :=
  Z.max 0 (match parseIntOf v with
           | JNum z => if z =? 0 then 0 else z
           | _ => 0
           end).

(** ** The data model *)

Record counters : Type := Counters {
  totalQada : jsnum;
  weeklyTarget : jsnum;
  completedThisWeek : jsnum;
}.

#[global] Instance counters_eq_dec : EqDecision counters.
Proof. solve_decision. Defined.

(** [{ totalQada: 0, weeklyTarget: 0, completedThisWeek: 0 }] *)
Definition zeroCounters : counters := Counters (JNum 0) (JNum 0) (JNum 0).

(** [{ ...o }] for [o = prev[p]], which is [undefined] when the key is
    missing: spreading [undefined] gives the empty object. *)
Definition spread (o : option counters) : counters :=
  default (Counters JUndef JUndef JUndef) o.

Definition withTotalQada (c : counters) (n : jsnum) : counters :=
  Counters n (weeklyTarget c) (completedThisWeek c).

Definition withWeeklyTarget (c : counters) (n : jsnum) : counters :=
  Counters (totalQada c) n (completedThisWeek c).

Definition withCompletedThisWeek (c : counters) (n : jsnum) : counters :=
  Counters (totalQada c) (weeklyTarget c) n.

Abbreviation prayerMap := (gmap string counters).

(** The current generation of prayer names (the Firestore version of the
    component). *)
Definition PRAYERS : list string :=
  ["Subuh"; "Zohor"; "Asar"; "Maghrib"; "Isyak"]%string.

(** The earlier generation (the two earlier versions of the component). *)
Definition LEGACY_PRAYERS : list string :=
  ["Fajr"; "Dhuhr"; "Asr"; "Maghrib"; "Isha"]%string.

Definition OLD_TO_NEW : list (string * string) :=
  [("Fajr", "Subuh"); ("Dhuhr", "Zohor"); ("Asr", "Asar");
   ("Maghrib", "Maghrib"); ("Isha", "Isyak")]%string.

(** [Object.fromEntries(names.map((p) => [p, {0, 0, 0}]))] *)
Definition defaultPrayerDataFor (names : list string) : prayerMap :=
  list_to_map ((λ p, (p, zeroCounters)) <$> names).

Definition getDefaultPrayerData : prayerMap := defaultPrayerDataFor PRAYERS.

(** [data[k]] is truthy: the values of the mapping are objects, so this is
    the presence of the key. *)
Definition truthyAt (data : prayerMap) (k : string) : bool :=
  bool_decide (is_Some (data !! k)).

(** The loop of [migratePrayerNames]:
    [for (const [oldKey, newKey] of Object.entries(OLD_TO_NEW))
       migrated[newKey] = data[oldKey] || { 0, 0, 0 }] *)
Definition renameLegacyKeys (data : prayerMap) : prayerMap :=
  foldl (λ (migrated : prayerMap) '(oldKey, newKey),
           <[newKey := default zeroCounters (data !! oldKey)]> migrated)
        ∅ OLD_TO_NEW.

(** [migratePrayerNames(data)]; [None] is [null] (or any falsy [data]). *)
Definition migratePrayerNames (data : option prayerMap) : option prayerMap :=
  match data with
  | None => None
  | Some d =>
      let hasAllNewKeys := forallb (truthyAt d) PRAYERS in
      if hasAllNewKeys then Some d
      else
        let hasOldKeys :=
          existsb (truthyAt d) ["Fajr"; "Dhuhr"; "Asr"; "Isha"]%string in
        if negb hasOldKeys then Some d
        else
          Some (renameLegacyKeys d)
  end.

(** ** Calendar helper *)

Definition msPerDay : Z := 1000 * 60 * 60 * 24.

(** [getDaysLeftInWeek(weekStartDate)], the clock read being [now]. *)
Definition getDaysLeftInWeek (now weekStartDate : Z) : Z :=
  let elapsed := (now - weekStartDate) / msPerDay in
  Z.max 0 (7 - elapsed).

Definition shouldAutoReset (now weekStartDate : Z) : bool :=
  getDaysLeftInWeek now weekStartDate =? 0.

(** [new Date().toISOString().slice(0, 10)], as a UTC day number. *)
Definition isoDay (now : Z) : Z := now / msPerDay.

(** ** Strings: [trim] and [toLowerCase] on ASCII input

    White space is the ASCII part of what [String.prototype.trim] strips,
    and only the letters A to Z are lower-cased: on text with a character
    beyond ASCII the code may return something else. *)

Definition trim (s : string) : string :=
  String.rev (skipWhiteSpace (String.rev (skipWhiteSpace s))).

Definition lowerChar (c : ascii) : ascii :=
  let n := N_of_ascii c in
  if ((65 <=? n) && (n <=? 90))%N then ascii_of_N (n + 32) else c.

Fixpoint toLowerCase (s : string) : string :=
  match s with
  | String c s' => String (lowerChar c) (toLowerCase s')
  | EmptyString => EmptyString
  end.

(** String conversion of a number inside a template literal. *)
Definition showNum (n : jsnum) : string :=
  match n with
  | JUndef => "undefined"
  | JNaN => "NaN"
  | JNum z => pretty z
  end.

(** ** The stored document and the remote store ([firebase.js]) *)

(** [{ prayers, weekStartDate }]: what [saveData], [saveToFirestore] and the
    export write, and what a load or an import reads; either field may be
    missing in a document that comes from outside. *)
Record Saved : Type := MkSaved {
  sv_prayers : option prayerMap;
  sv_weekStartDate : option Z;
}.

(** [{ pin, tracker }]; [tracker] is [null] after registration, and [pin] is
    missing in a document that [saveToFirestore] had to create. *)
Record UserDoc : Type := MkUserDoc {
  pin : option string;
  tracker : option Saved;
}.

Abbreviation Firestore := (gmap string UserDoc).

Definition getUserDoc (username : string) : string := toLowerCase username.

Inductive LoginResult : Type :=
| LoginFailed (error : string)
| LoginOk (data : option Saved).

Definition loginUser (db : Firestore) (username pin0 : string) : LoginResult :=
  match db !! getUserDoc username with
  | None => LoginFailed "User not found"
  | Some data =>
      if bool_decide (pin data = Some pin0) then LoginOk (tracker data)
      else LoginFailed "Wrong PIN"
  end.

(** [registerUser]: the result ([None] is success) and the collection
    afterwards. *)
Definition registerUser (db : Firestore) (username pin0 : string)
  : option string * Firestore :=
  match db !! getUserDoc username with
  | Some _ => (Some "Username already taken"%string, db)
  | None => (None, <[getUserDoc username := MkUserDoc (Some pin0) None]> db)
  end.

Definition loadFromFirestore (db : Firestore) (username : string) : option Saved :=
  match db !! getUserDoc username with
  | Some data => tracker data
  | None => None
  end.

Definition saveToFirestore (db : Firestore) (username : string) (data : Saved)
  : Firestore :=
  let existingPin := db !! getUserDoc username ≫= pin in
  <[getUserDoc username := MkUserDoc existingPin (Some data)]> db.

(** ** The world the component runs in *)

Inductive SyncStatus : Type := loading | synced | offline.

(** One call of [emailjs.send]: the date of the subject line, the weekly
    summary and the mapping serialised as the full backup. *)
Record Email : Type := MkEmail {
  em_date : Z;
  em_summary : string;
  em_backup : prayerMap;
}.

(** The rejection value of [emailjs.send], as the failure callback reads
    it. *)
Record SendError : Type := MkSendError {
  err_text : option string;
  err_message : option string;
  err_json : string;
}.

Record World : Type := MkWorld {
  (* React state *)
  currentUser : option string;
  loginError : string;
  prayers : prayerMap;
  weekStartDate : Z;
  todayInput : gmap string string;
  syncStatus : SyncStatus;
  (* useRef *)
  skipNextSync : bool;
  (* localStorage *)
  lsTracker : option Saved;
  lsEmailSent : option Z;
  lsUser : option string;
  (* collaborators: the collection, the calls of [saveToFirestore] and of
     [emailjs.send] made so far, the messages shown by [alert] *)
  firestore : Firestore;
  saveAttempts : list (string * Saved);
  sentEmails : list Email;
  alerts : list string;
}.

Definition setCurrentUser (v : option string) (w : World) : World :=
  let 'MkWorld _ b c d e f g h i j k l m n := w in MkWorld v b c d e f g h i j k l m n.
Definition setLoginError (v : string) (w : World) : World :=
  let 'MkWorld a _ c d e f g h i j k l m n := w in MkWorld a v c d e f g h i j k l m n.
Definition setPrayers (v : prayerMap) (w : World) : World :=
  let 'MkWorld a b _ d e f g h i j k l m n := w in MkWorld a b v d e f g h i j k l m n.
Definition setWeekStartDate (v : Z) (w : World) : World :=
  let 'MkWorld a b c _ e f g h i j k l m n := w in MkWorld a b c v e f g h i j k l m n.
Definition setTodayInput (v : gmap string string) (w : World) : World :=
  let 'MkWorld a b c d _ f g h i j k l m n := w in MkWorld a b c d v f g h i j k l m n.
Definition setSyncStatus (v : SyncStatus) (w : World) : World :=
  let 'MkWorld a b c d e _ g h i j k l m n := w in MkWorld a b c d e v g h i j k l m n.
Definition setSkipNextSync (v : bool) (w : World) : World :=
  let 'MkWorld a b c d e f _ h i j k l m n := w in MkWorld a b c d e f v h i j k l m n.
Definition setLsTracker (v : option Saved) (w : World) : World :=
  let 'MkWorld a b c d e f g _ i j k l m n := w in MkWorld a b c d e f g v i j k l m n.
Definition setLsEmailSent (v : option Z) (w : World) : World :=
  let 'MkWorld a b c d e f g h _ j k l m n := w in MkWorld a b c d e f g h v j k l m n.
Definition setLsUser (v : option string) (w : World) : World :=
  let 'MkWorld a b c d e f g h i _ k l m n := w in MkWorld a b c d e f g h i v k l m n.
Definition setFirestore (v : Firestore) (w : World) : World :=
  let 'MkWorld a b c d e f g h i j _ l m n := w in MkWorld a b c d e f g h i j v l m n.
Definition setSaveAttempts (v : list (string * Saved)) (w : World) : World :=
  let 'MkWorld a b c d e f g h i j k _ m n := w in MkWorld a b c d e f g h i j k v m n.
Definition setSentEmails (v : list Email) (w : World) : World :=
  let 'MkWorld a b c d e f g h i j k l _ n := w in MkWorld a b c d e f g h i j k l v n.
Definition setAlerts (v : list string) (w : World) : World :=
  let 'MkWorld a b c d e f g h i j k l m _ := w in MkWorld a b c d e f g h i j k l m v.

(** [alert(msg)] *)
Definition alert (msg : string) (w : World) : World :=
  setAlerts (alerts w ++ [msg]) w.

(** [saveData(data)] *)
Definition saveData (data : Saved) (w : World) : World :=
  setLsTracker (Some data) w.

(** *** Initial state: the [useState] initialisers *)

Definition initPrayers (saved : option Saved) : prayerMap :=
  match saved ≫= sv_prayers with
  | Some p => default getDefaultPrayerData (migratePrayerNames (Some p))
  | None => getDefaultPrayerData
  end.

Definition initWeekStartDate (now : Z) (saved : option Saved) : Z :=
  default now (saved ≫= sv_weekStartDate).

Definition initTodayInput (names : list string) : gmap string string :=
  list_to_map ((λ p, (p, ""%string)) <$> names).

(** The component at mount, over a given [localStorage] and collection. *)
Definition mount (now : Z) (tracker0 : option Saved) (emailSent0 : option Z)
    (user0 : option string) (db : Firestore) : World :=
  {| currentUser := match user0 with Some EmptyString => None | u => u end;
     loginError := "";
     prayers := initPrayers tracker0;
     weekStartDate := initWeekStartDate now tracker0;
     todayInput := initTodayInput PRAYERS;
     syncStatus := loading;
     skipNextSync := false;
     lsTracker := tracker0;
     lsEmailSent := emailSent0;
     lsUser := user0;
     firestore := db;
     saveAttempts := [];
     sentEmails := [];
     alerts := [] |}.

(** ** Mutations of the ledger *)

(** [handleSetTotal(prayer, value)] *)
Definition handleSetTotal (prayer value : string) (w : World) : World :=
  let num := clampInput (Some value) in
  let prev := prayers w in
  setPrayers (<[prayer := withTotalQada (spread (prev !! prayer)) (JNum num)]> prev) w.

(** [handleSetWeeklyTarget(prayer, value)] *)
Definition handleSetWeeklyTarget (prayer value : string) (w : World) : World :=
  let num := clampInput (Some value) in
  let prev := prayers w in
  setPrayers (<[prayer := withWeeklyTarget (spread (prev !! prayer)) (JNum num)]> prev) w.

(** [handleTodayInputChange(prayer, value)] *)
Definition handleTodayInputChange (prayer value : string) (w : World) : World :=
  setTodayInput (<[prayer := value]> (todayInput w)) w.

(** [handleAddCompleted(prayer)].  [None]: reading [prev[prayer].totalQada]
    on a missing key throws a [TypeError] inside the state updater. *)
Definition handleAddCompleted (prayer : string) (w : World) : option World :=
  let num := clampInput (todayInput w !! prayer) in
  if num =? 0 then Some w
  else
    let prev := prayers w in
    match prev !! prayer with
    | None => None
    | Some d =>
        let updated :=
          withCompletedThisWeek
            (withTotalQada d (jsMax0 (jsSub (totalQada d) num)))
            (jsAdd (completedThisWeek d) num) in
        Some (setTodayInput (<[prayer := ""%string]> (todayInput w))
                (setPrayers (<[prayer := updated]> prev) w))
    end.

(** The loop of [resetWeek]:
    [for (const p of names) updated[p] = { ...updated[p], completedThisWeek: 0 }] *)
Definition zeroCompleted (names : list string) (prev : prayerMap) : prayerMap :=
  foldl (λ (updated : prayerMap) p,
           <[p := withCompletedThisWeek (spread (updated !! p)) (JNum 0)]> updated)
        prev names.

(** [resetWeek] of the Firestore version: the call of [sendBackupEmail] is
    commented out there. *)
Definition resetWeek (now : Z) (w : World) : World :=
  setWeekStartDate now (setPrayers (zeroCompleted PRAYERS (prayers w)) w).

(** The auto-reset effect, run at mount and whenever [weekStartDate]
    changes. *)
Definition autoResetEffect (now : Z) (w : World) : World :=
  if shouldAutoReset now (weekStartDate w) then resetWeek now w else w.

(** ** Persistence and synchronisation *)

(** The persist effect, run at mount and whenever [prayers] or
    [weekStartDate] changes.  [online] tells whether the remote write, when
    one is issued, succeeds. *)
Definition persistEffect (online : bool) (w : World) : World :=
  let data := MkSaved (Some (prayers w)) (Some (weekStartDate w)) in
  let w := saveData data w in
  if skipNextSync w then setSkipNextSync false w
  else
    match currentUser w with
    | None => w
    | Some u =>
        let w := setSaveAttempts (saveAttempts w ++ [(u, data)]) w in
        if online then
          setSyncStatus synced (setFirestore (saveToFirestore (firestore w) u data) w)
        else setSyncStatus offline w
    end.

(** What [handleLogin] and the load effect both do with the remote
    [tracker]:
    [if (data?.prayers) { ...; skipNextSync.current = true; ... }] *)
Definition adoptRemote (data : option Saved) (w : World) : World :=
  match data with
  | Some d =>
      match sv_prayers d with
      | Some p =>
          let migrated := default p (migratePrayerNames (Some p)) in
          let w := setSkipNextSync true w in
          let w := setPrayers migrated w in
          let w := match sv_weekStartDate d with
                   | Some t => setWeekStartDate t w
                   | None => w
                   end in
          saveData (MkSaved (Some migrated) (sv_weekStartDate d)) w
      | None => w
      end
  | None => w
  end.

(** The load effect, run at mount and whenever [currentUser] changes. *)
Definition loadEffect (online : bool) (w : World) : World :=
  match currentUser w with
  | None => w
  | Some u =>
      if online then
        setSyncStatus synced (adoptRemote (loadFromFirestore (firestore w) u) w)
      else setSyncStatus offline w
  end.

Definition handleLogin (loginUsername loginPin : string) (online : bool)
    (w : World) : World :=
  if bool_decide (trim loginUsername = ""%string)
     || bool_decide (trim loginPin = ""%string)
  then setLoginError "Please enter username and PIN" w
  else
    let w := setLoginError "" w in
    if negb online then setLoginError "Connection failed. Try again." w
    else
      match loginUser (firestore w) (trim loginUsername) (trim loginPin) with
      | LoginFailed error => setLoginError error w
      | LoginOk data =>
          let username := toLowerCase (trim loginUsername) in
          let w := setCurrentUser (Some username) (setLsUser (Some username) w) in
          setSyncStatus synced (adoptRemote data w)
      end.

Definition handleRegister (loginUsername loginPin : string) (now : Z)
    (online : bool) (w : World) : World :=
  if bool_decide (trim loginUsername = ""%string)
     || bool_decide (trim loginPin = ""%string)
  then setLoginError "Please enter username and PIN" w
  else if (String.length (trim loginPin) <? 4)%nat
  then setLoginError "PIN must be at least 4 characters" w
  else
    let w := setLoginError "" w in
    if negb online then setLoginError "Connection failed. Try again." w
    else
      match registerUser (firestore w) (trim loginUsername) (trim loginPin) with
      | (Some error, _) => setLoginError error w
      | (None, db) =>
          let w := setFirestore db w in
          let username := toLowerCase (trim loginUsername) in
          let w := setCurrentUser (Some username) (setLsUser (Some username) w) in
          let w := setPrayers getDefaultPrayerData w in
          let w := setWeekStartDate now w in
          setSyncStatus synced w
      end.

Definition handleLogout (w : World) : World :=
  setSyncStatus loading
    (setLoginError "" (setCurrentUser None (setLsUser None w))).

(** [reader.onload] of [handleImport]; [None]: [JSON.parse] throws. *)
Definition handleImport (imported : option Saved) (w : World) : World :=
  match imported with
  | None => alert "Invalid backup file." w
  | Some doc =>
      let w := match sv_prayers doc with
               | Some p => setPrayers p w
               | None => w
               end in
      match sv_weekStartDate doc with
      | Some t => setWeekStartDate t w
      | None => w
      end
  end.

(** ** The weekly backup e-mail *)

Definition newline : string := String (ascii_of_nat 10) EmptyString.

(** One line of the summary:
    [`${p}: ${d.completedThisWeek} completed | ${d.totalQada} remaining`] *)
Definition summaryLine (p : string) (d : counters) : string :=
  (p +:+ ": " +:+ showNum (completedThisWeek d) +:+ " completed | "
     +:+ showNum (totalQada d) +:+ " remaining")%string.

(** [names.map(...).join('\n')]; [None]: a name is missing from
    [prayerData] and reading [d.completedThisWeek] throws. *)
Definition summaryOf (names : list string) (prayerData : prayerMap)
  : option string :=
  String.concat newline
    <$> mapM (λ p, summaryLine p <$> prayerData !! p) names.

(** [sendBackupEmail(prayerData, skipGuard)] up to and including the call of
    [emailjs.send]; the promise it leaves behind is settled by
    [emailSettled].  [names] is the [PRAYERS] constant of the version. *)
Definition sendBackupEmail (names : list string) (prayerData : prayerMap)
    (skipGuard : bool) (now : Z) (w : World) : option World :=
  if negb skipGuard && bool_decide (lsEmailSent w = Some (isoDay now))
  then Some w
  else
    let currentDate := isoDay now in
    summary ← summaryOf names prayerData;
    Some (setSentEmails (sentEmails w ++ [MkEmail currentDate summary prayerData]) w).

(** [err?.text || err?.message || JSON.stringify(err)]: the empty string is
    falsy. *)
Definition errorText (err : SendError) : string :=
  match err_text err with
  | Some (String c t) => String c t
  | _ =>
      match err_message err with
      | Some (String c m) => String c m
      | _ => err_json err
      end
  end.

(** The two callbacks given to [.then]; [currentDate] is the date captured
    when the e-mail was sent. *)
Definition emailSettled (currentDate : Z) (outcome : option SendError)
    (w : World) : World :=
  match outcome with
  | None =>
      alert "Backup email sent successfully!"
        (setLsEmailSent (Some currentDate) w)
  | Some err => alert ("Email failed: " +:+ errorText err) w
  end.

(** ** The two earlier versions of the component

    Both keep the earlier prayer names and have neither login nor remote
    store. *)

(** The version with the e-mail backup: [resetWeek] calls
    [sendBackupEmail(prev, false)] inside the state updater, before the loop
    that zeroes the counters. *)
Module EmailVersion.

Definition resetWeek (now : Z) (w : World) : option World :=
  let prev := prayers w in
  w ← sendBackupEmail LEGACY_PRAYERS prev false now w;
  Some (setWeekStartDate now
          (setPrayers (zeroCompleted LEGACY_PRAYERS prev) w)).

Definition autoResetEffect (now : Z) (w : World) : option World :=
  if shouldAutoReset now (weekStartDate w) then resetWeek now w else Some w.

End EmailVersion.

(** The first version: no e-mail at all. *)
Module FirstVersion.

Definition resetWeek (now : Z) (w : World) : World :=
  setWeekStartDate now (setPrayers (zeroCompleted LEGACY_PRAYERS (prayers w)) w).

Definition autoResetEffect (now : Z) (w : World) : World :=
  if shouldAutoReset now (weekStartDate w) then resetWeek now w else w.

End FirstVersion.

(** ** A sample world, used by the examples below *)

Definition sampleCounters : counters := Counters (JNum 5) (JNum 2) (JNum 1).

Definition samplePrayers : prayerMap :=
  <["Subuh"%string := sampleCounters]> getDefaultPrayerData.

Definition sampleWorld : World :=
  setTodayInput (<["Subuh"%string := "3"%string]> (initTodayInput PRAYERS))
    (mount 0 (Some (MkSaved (Some samplePrayers) (Some 0))) None None ∅).


(** A backup written by one of the earlier versions. *)
Definition legacyPrayers : prayerMap :=
  <["Fajr"%string := sampleCounters]> (defaultPrayerDataFor LEGACY_PRAYERS).

(** A mapping whose only key is the one name common to both generations. *)
Definition maghribOnly : prayerMap := {["Maghrib"%string := sampleCounters]}.

(** [sampleWorld] with a session open. *)
Definition aliceWorld : World := setCurrentUser (Some "alice"%string) sampleWorld.

(** The key set the ledger is meant to have. *)
Definition currentKeys : gset string := list_to_set PRAYERS.

(** The keys that only the earlier generation has. *)
Definition legacyOnlyKeys : list string := ["Fajr"; "Dhuhr"; "Asr"; "Isha"]%string.

(** What the loop of [resetWeek] does to one entry. *)
Definition zeroed (o : option counters) : counters :=
  withCompletedThisWeek (spread o) (JNum 0).

(** A stored mapping on which [migratePrayerNames] rewrites the keys. *)
Definition migrates (d : prayerMap) : Prop :=
  (∃ p, p ∈ PRAYERS ∧ d !! p = None)
  ∧ (∃ k, k ∈ legacyOnlyKeys ∧ is_Some (d !! k)).

(** A stored document whose mapping, if it has one, either has exactly the
    current names or is one that the migration rewrites. *)
Definition keysLoadable (data : option Saved) : Prop :=
  ∀ d, data ≫= sv_prayers = Some d → dom d = currentKeys ∨ migrates d.

(** The full current set of names, plus one stray earlier name. *)
Definition strayPrayers : prayerMap :=
  <["Fajr"%string := sampleCounters]> samplePrayers.

(** ** The rest of the component *)

(** [a < b] on numbers: a comparison with [undefined] or [NaN] is false. *)
Definition jsLt (a b : jsnum) : bool :=
  match a, b with
  | JNum x, JNum y => x <? y
  | _, _ => false
  end.

(** [isWarning(prayer)], with [daysLeft] computed at [now].  [&&] does not
    evaluate its right side when [daysLeft <= 2] is false; when it is true
    and the key is missing, reading [data.weeklyTarget] throws ([None]). *)
Definition isWarning (prayer : string) (now : Z) (w : World) : option bool :=
  let daysLeft := getDaysLeftInWeek now (weekStartDate w) in
  let data := prayers w !! prayer in
  if daysLeft <=? 2 then
    d ← data;
    Some (jsLt (JNum 0) (weeklyTarget d)
          && jsLt (completedThisWeek d) (weeklyTarget d))
  else Some false.

(** The file [handleExport] offers for download: the day in its name and
    the object [{ prayers, weekStartDate }] it serialises. *)
Record ExportFile : Type := MkExportFile {
  ex_day : Z;
  ex_data : Saved;
}.

Definition handleExport (now : Z) (w : World) : ExportFile :=
  MkExportFile (isoDay now) (MkSaved (Some (prayers w)) (Some (weekStartDate w))).

(** [loadData()]: the parse of what [saveData] stored. *)
Definition loadData (w : World) : option Saved := lsTracker w.

(** The page is loaded again over the [localStorage] and the collection
    that [w] leaves behind. *)
Definition reloadPage (now : Z) (w : World) : World :=
  mount now (loadData w) (lsEmailSent w) (lsUser w) (firestore w).

(** [JSON.stringify] writes [NaN] as [null], which is not a number any
    more when it is parsed back; a missing field stays missing.  A mapping
    goes through JSON unchanged when none of its fields is [NaN]. *)
Definition jsonSafe (m : prayerMap) : Prop :=
  ∀ k c, m !! k = Some c →
    totalQada c ≠ JNaN ∧ weeklyTarget c ≠ JNaN ∧ completedThisWeek c ≠ JNaN.

(** The counters the data model intends: three integers, none negative. *)
Definition validCounters (c : counters) : Prop :=
  ∃ t g k, c = Counters (JNum t) (JNum g) (JNum k) ∧ 0 ≤ t ∧ 0 ≤ g ∧ 0 ≤ k.

(** The ledger the data model intends: exactly the five current names, each
    with valid counters. *)
Definition validLedger (m : prayerMap) : Prop :=
  dom m = currentKeys ∧ ∀ k c, m !! k = Some c → validCounters c.

(** What the user does to record completions: type [value] into the field
    of [prayer], then press Add. *)
Definition typeAndAdd (prayer value : string) (w : World) : option World :=
  handleAddCompleted prayer (handleTodayInputChange prayer value w).

(** The ledger as [saveData] and [saveToFirestore] receive it. *)
Definition ledgerOf (w : World) : Saved :=
  MkSaved (Some (prayers w)) (Some (weekStartDate w)).

(** A collection with one account, "alice" with PIN "1234" and no tracker
    yet, and the sample world over it. *)
Definition aliceDb : Firestore :=
  {["alice"%string := MkUserDoc (Some "1234"%string) None]}.

Definition registeredWorld : World := setFirestore aliceDb sampleWorld.

(** ** The range in which the model computes as the code does *)

(** [Number.MAX_SAFE_INTEGER].  A double whose value is an integer between
    [-MAX_SAFE_INTEGER] and [MAX_SAFE_INTEGER] is that integer exactly, the
    sum and the difference of two of them are exact when they stay in that
    range, and [parseInt] is exact on a numeral whose value is in it. *)
Definition MAX_SAFE_INTEGER : Z := 2 ^ 53 - 1.

Definition safeInteger (z : Z) : Prop :=
  - MAX_SAFE_INTEGER ≤ z ≤ MAX_SAFE_INTEGER.

(** Text made of ASCII characters only. *)
Fixpoint asciiOnly (s : string) : bool :=
  match s with
  | String c s' => (N_of_ascii c <? 128)%N && asciiOnly s'
  | EmptyString => true
  end.

(** A username that names one document of the collection as the model has
    it: ASCII text with no "/", which Firestore reads as a separator of
    path segments. *)
Fixpoint noSlash (s : string) : bool :=
  match s with
  | String c s' => negb (N_of_ascii c =? 47)%N && noSlash s'
  | EmptyString => true
  end.

Definition docId (s : string) : bool := asciiOnly s && noSlash s.

(** Counters that are three safe integers, none negative. *)
Definition safeCounters (c : counters) : Prop :=
  ∃ t g k, c = Counters (JNum t) (JNum g) (JNum k)
           ∧ 0 ≤ t ≤ MAX_SAFE_INTEGER
           ∧ 0 ≤ g ≤ MAX_SAFE_INTEGER
           ∧ 0 ≤ k ≤ MAX_SAFE_INTEGER.

(** A ledger of exactly the five current names, each with such counters. *)
Definition safeLedger (m : prayerMap) : Prop :=
  dom m = currentKeys ∧ ∀ k c, m !! k = Some c → safeCounters c.

(** A field that, when it holds a number, holds a safe integer. *)
Definition safeField (n : jsnum) : Prop :=
  match n with
  | JNum z => safeInteger z
  | _ => True
  end.

(** The sample world with the session of "alice" open over her account, in
    a cycle that began on 1 November 2026, 00:00 UTC. *)
Definition sessionWorld : World :=
  setWeekStartDate 1793491200000
    (setCurrentUser (Some "alice"%string) registeredWorld).

(** A backup of the current version: the default ledger with some progress
    for Zohor. *)
Definition backupPrayers : prayerMap :=
  <["Zohor"%string := Counters (JNum 4) (JNum 3) (JNum 2)]> getDefaultPrayerData.

(** Membership of a given string in a given list, by evaluation. *)
Ltac in_list := apply (bool_decide_unpack _); vm_compute; exact I.

(** Reduces the accessors and updates of a [World] given by its fields. *)
Ltac world_simpl :=
  cbv [setCurrentUser setLoginError setPrayers setWeekStartDate setTodayInput
       setSyncStatus setSkipNextSync setLsTracker setLsEmailSent setLsUser
       setFirestore setSaveAttempts setSentEmails setAlerts alert saveData
       currentUser loginError prayers weekStartDate todayInput syncStatus
       skipNextSync lsTracker lsEmailSent lsUser firestore saveAttempts
       sentEmails alerts].

(** * Properties *)

(** ** Calendar helper *)

Lemma msPerDay_eq : msPerDay = 86400000.
Proof. reflexivity. Qed.

Lemma getDaysLeftInWeek_floor now start :
  ∃ e, e * msPerDay ≤ now - start < (e + 1) * msPerDay
       ∧ getDaysLeftInWeek now start = Z.max 0 (7 - e).
Proof.
  exists ((now - start) / msPerDay). split; [|reflexivity].
  rewrite msPerDay_eq.
  pose proof (Z.div_mod (now - start) 86400000 ltac:(lia)).
  pose proof (Z.mod_pos_bound (now - start) 86400000 ltac:(lia)).
  lia.
Qed.

Lemma shouldAutoReset_iff now start :
  shouldAutoReset now start = true ↔ 7 * msPerDay ≤ now - start.
Proof.
  unfold shouldAutoReset, getDaysLeftInWeek. rewrite Z.eqb_eq, msPerDay_eq.
  pose proof (Z.div_mod (now - start) 86400000 ltac:(lia)).
  pose proof (Z.mod_pos_bound (now - start) 86400000 ltac:(lia)).
  split; intros; nia.
Qed.

Lemma shouldAutoReset_fresh now : shouldAutoReset now now = false.
Proof.
  apply not_true_is_false. rewrite shouldAutoReset_iff, msPerDay_eq. lia.
Qed.

(** C4. The days left are [max(0, 7 - e)] where [e] is the number of whole
    days elapsed (the floor of the elapsed time over one day); the cycle is
    expired exactly when that value is 0, that is, when seven whole days or
    more have elapsed: not yet at 6.99 days, and from 7.0 days on. *)
Theorem daysLeft_and_expiry (now start : Z) :
  getDaysLeftInWeek now start = Z.max 0 (7 - (now - start) / 86400000)
  ∧ (∃ e, e * 86400000 ≤ now - start < (e + 1) * 86400000
          ∧ getDaysLeftInWeek now start = Z.max 0 (7 - e))
  ∧ (shouldAutoReset now start = true ↔ getDaysLeftInWeek now start = 0)
  ∧ (shouldAutoReset now start = true ↔ 7 * 86400000 ≤ now - start)
  ∧ shouldAutoReset (start + 603936000) start = false
  ∧ (∀ extra, 0 ≤ extra → shouldAutoReset (start + 604800000 + extra) start = true).
Proof.
  split; [reflexivity|].
  split; [exact (getDaysLeftInWeek_floor now start)|].
  split; [unfold shouldAutoReset; apply Z.eqb_eq|].
  split; [exact (shouldAutoReset_iff now start)|].
  split.
  - apply not_true_is_false. rewrite shouldAutoReset_iff, msPerDay_eq. lia.
  - intros extra Hextra. rewrite shouldAutoReset_iff, msPerDay_eq. lia.
Qed.

(** ** The reset of the weekly counters *)

Lemma zeroed_zeroed o : zeroed (Some (zeroed o)) = zeroed o.
Proof. reflexivity. Qed.

Lemma zeroCompleted_lookup names (m : prayerMap) k :
  zeroCompleted names m !! k
  = if decide (k ∈ names) then Some (zeroed (m !! k)) else m !! k.
Proof.
  unfold zeroCompleted. revert m.
  induction names as [|p names IH]; intros m; cbn [foldl].
  - destruct (decide (k ∈ [])) as [Hk|_]; [by apply elem_of_nil in Hk | done].
  - rewrite IH. fold (zeroed (m !! p)).
    destruct (decide (k = p)) as [->|Hne].
    + rewrite lookup_insert_eq, zeroed_zeroed.
      destruct (decide (p ∈ p :: names)) as [_|Hn]; [|set_solver].
      by destruct (decide (p ∈ names)).
    + rewrite lookup_insert_ne by done.
      destruct (decide (k ∈ names)) as [Hin|Hin], (decide (k ∈ p :: names)) as [Hin'|Hin'];
        try done; exfalso; revert Hin Hin'; rewrite elem_of_cons; tauto.
Qed.

Lemma zeroCompleted_idemp names (m : prayerMap) :
  zeroCompleted names (zeroCompleted names m) = zeroCompleted names m.
Proof.
  apply map_eq; intros k. rewrite !zeroCompleted_lookup.
  destruct (decide (k ∈ names)); [by rewrite zeroed_zeroed | done].
Qed.

Lemma zeroCompleted_dom names (m : prayerMap) :
  dom (zeroCompleted names m) = dom m ∪ list_to_set names.
Proof.
  apply set_eq; intros k.
  rewrite elem_of_union, !elem_of_dom, elem_of_list_to_set, zeroCompleted_lookup.
  destruct (decide (k ∈ names)) as [Hk|Hk]; split.
  - by right.
  - by eexists.
  - by left.
  - by intros [?|?].
Qed.

(** C5. A reset is idempotent within one instant: right after [resetWeek]
    has set [weekStartDate] to [now], the expiry check at [now] is false, so
    the auto-reset effect leaves the state as the first reset produced it;
    and were [resetWeek] run a second time at [now], it would produce that
    same state again.  The effect stays quiet at any later instant less
    than seven days after the reset. *)
Theorem resetWeek_idempotent (now : Z) (w : World) :
  shouldAutoReset now (weekStartDate (resetWeek now w)) = false
  ∧ autoResetEffect now (resetWeek now w) = resetWeek now w
  ∧ resetWeek now (resetWeek now w) = resetWeek now w
  ∧ (∀ later, later - now < 7 * msPerDay →
       autoResetEffect later (resetWeek now w) = resetWeek now w).
Proof.
  assert (Hstart : weekStartDate (resetWeek now w) = now) by (by destruct w).
  split; [rewrite Hstart; apply shouldAutoReset_fresh|].
  split; [|split].
  - unfold autoResetEffect. by rewrite Hstart, shouldAutoReset_fresh.
  - destruct w; cbv [resetWeek setWeekStartDate setPrayers prayers].
    by rewrite zeroCompleted_idemp.
  - intros later Hlater. unfold autoResetEffect. rewrite Hstart.
    destruct (shouldAutoReset later now) eqn:Hexp; [|done].
    apply shouldAutoReset_iff in Hexp. lia.
Qed.

(** C2. [resetWeek] sets [completedThisWeek] to 0 for each of the five
    prayer names, leaves [totalQada] and [weeklyTarget] of every entry as
    they were, leaves the entries of any other key untouched, sets
    [weekStartDate] to the time of the reset, and changes nothing else. *)
Theorem resetWeek_frame (now : Z) (w : World) :
  let w' := resetWeek now w in
  (∀ p, p ∈ PRAYERS →
     completedThisWeek <$> prayers w' !! p = Some (JNum 0))
  ∧ (∀ k, totalQada (spread (prayers w' !! k)) = totalQada (spread (prayers w !! k))
          ∧ weeklyTarget (spread (prayers w' !! k))
            = weeklyTarget (spread (prayers w !! k)))
  ∧ (∀ k, k ∉ PRAYERS → prayers w' !! k = prayers w !! k)
  ∧ weekStartDate w' = now
  ∧ w' = setWeekStartDate now (setPrayers (prayers w') w)
  ∧ (currentUser w', loginError w', todayInput w', syncStatus w', skipNextSync w')
    = (currentUser w, loginError w, todayInput w, syncStatus w, skipNextSync w)
  ∧ (lsTracker w', lsEmailSent w', lsUser w')
    = (lsTracker w, lsEmailSent w, lsUser w)
  ∧ (firestore w', saveAttempts w', sentEmails w', alerts w')
    = (firestore w, saveAttempts w, sentEmails w, alerts w).
Proof.
  destruct w; cbv [resetWeek setWeekStartDate setPrayers prayers weekStartDate].
  repeat split; try done.
  - intros p Hp. rewrite zeroCompleted_lookup.
    by destruct (decide (p ∈ PRAYERS)).
  - rewrite zeroCompleted_lookup.
    by destruct (decide (k ∈ PRAYERS)).
  - rewrite zeroCompleted_lookup.
    by destruct (decide (k ∈ PRAYERS)).
  - intros k Hk. rewrite zeroCompleted_lookup.
    by destruct (decide (k ∈ PRAYERS)).
Qed.

(** The scenario of the specification: a cycle started eight days ago, with
    a target of 5 and 3 completed, is expired, and the reset keeps backlog
    and target while zeroing the progress. *)
Example resetWeek_after_eight_days :
  let w0 := setPrayers (<["Subuh"%string := Counters (JNum 9) (JNum 5) (JNum 3)]>
                          getDefaultPrayerData) sampleWorld in
  let now := 8 * msPerDay in
  shouldAutoReset now (weekStartDate w0) = true
  ∧ prayers (autoResetEffect now w0) !! "Subuh"%string
    = Some (Counters (JNum 9) (JNum 5) (JNum 0))
  ∧ weekStartDate (autoResetEffect now w0) = now.
Proof. vm_compute. done. Qed.

(** ** Recording completed prayers *)

Lemma clampInput_nonneg v : 0 ≤ clampInput v.
Proof. unfold clampInput. lia. Qed.

Lemma clampInput_NaN v : parseIntOf v = JNaN → clampInput v = 0.
Proof. unfold clampInput. by intros ->. Qed.

(** C1. With [c] the parsed and clamped pending input of prayer [p]: when
    [c] is positive, [handleAddCompleted] sets [totalQada] to
    [max(0, old - c)] and [completedThisWeek] to [old + c] for [p] (the
    other entries and the cycle start stay, the pending input is cleared);
    when [c] is 0, which includes input that is not a number, the whole
    state is unchanged, pending input included.  The counts are safe
    integers: [c], the old backlog, the old completed count and the new
    completed count. *)
Theorem handleAddCompleted_records (p : string) (w : World) :
  let c := clampInput (todayInput w !! p) in
  0 ≤ c
  ∧ (0 < c → ∀ d t k,
       prayers w !! p = Some d →
       totalQada d = JNum t →
       completedThisWeek d = JNum k →
       c ≤ MAX_SAFE_INTEGER →
       safeInteger t →
       safeInteger k →
       k + c ≤ MAX_SAFE_INTEGER →
       ∃ w', handleAddCompleted p w = Some w'
             ∧ prayers w' !! p
               = Some (Counters (JNum (Z.max 0 (t - c))) (weeklyTarget d)
                         (JNum (k + c)))
             ∧ (∀ q, q ≠ p → prayers w' !! q = prayers w !! q)
             ∧ weekStartDate w' = weekStartDate w
             ∧ todayInput w' = <[p := ""%string]> (todayInput w))
  ∧ (c = 0 → handleAddCompleted p w = Some w)
  ∧ (parseIntOf (todayInput w !! p) = JNaN → handleAddCompleted p w = Some w).
Proof.
  intros c. split; [apply clampInput_nonneg|]. split; [|split].
  - intros Hc d t k Hd Ht Hk _ _ _ _. unfold handleAddCompleted. fold c.
    destruct (Z.eqb_spec c 0) as [?|_]; [lia|].
    rewrite Hd, Ht, Hk. eexists. split; [reflexivity|].
    destruct w; cbn. split; [by rewrite lookup_insert_eq|].
    split; [|done]. intros q Hq. by rewrite lookup_insert_ne.
  - intros Hc. unfold handleAddCompleted. fold c. by rewrite Hc.
  - intros Hnan. unfold handleAddCompleted.
    by rewrite (clampInput_NaN _ Hnan).
Qed.

(** C1 at a concrete state: 3 recorded against a backlog of 5 with 1
    already completed. *)
Lemma handleAddCompleted_records_witness :
  ∃ w', handleAddCompleted "Subuh" sampleWorld = Some w'
        ∧ prayers w' !! "Subuh"%string
          = Some (Counters (JNum 2) (JNum 2) (JNum 4)).
Proof.
  destruct (handleAddCompleted_records "Subuh" sampleWorld) as (_ & Hpos & _).
  destruct (Hpos ltac:(vm_compute; reflexivity) sampleCounters 5 1
              ltac:(vm_compute; reflexivity) eq_refl eq_refl
              ltac:(vm_compute; discriminate)
              ltac:(split; vm_compute; discriminate)
              ltac:(split; vm_compute; discriminate)
              ltac:(vm_compute; discriminate))
    as (w' & Hw' & Hp & _).
  exists w'. split; [exact Hw'|exact Hp].
Defined.

(** More is recorded than the backlog holds: the backlog stops at 0, the
    weekly count does not. *)
Example handleAddCompleted_overshoot :
  (prayers <$> handleAddCompleted "Subuh"
     (handleTodayInputChange "Subuh" "12" sampleWorld)) ≫= (.!! "Subuh"%string)
  = Some (Counters (JNum 0) (JNum 2) (JNum 13)).
Proof. vm_compute. reflexivity. Qed.

(** Input that is not a number, and a negative count, change nothing. *)
Example handleAddCompleted_noop :
  let w1 := handleTodayInputChange "Subuh" "abc" sampleWorld in
  let w2 := handleTodayInputChange "Subuh" "-4" sampleWorld in
  handleAddCompleted "Subuh" w1 = Some w1
  ∧ handleAddCompleted "Subuh" w2 = Some w2.
Proof. split; reflexivity. Qed.

(** ** Migration of the prayer names *)

Lemma truthyAt_true (d : prayerMap) k : truthyAt d k = true ↔ is_Some (d !! k).
Proof. unfold truthyAt. apply bool_decide_eq_true. Qed.

Lemma hasAllNewKeys_iff (d : prayerMap) :
  forallb (truthyAt d) PRAYERS = true ↔ ∀ p, p ∈ PRAYERS → is_Some (d !! p).
Proof.
  rewrite forallb_forall. split.
  - intros H p Hp. apply truthyAt_true, H. by apply list_elem_of_In.
  - intros H p Hp. apply truthyAt_true, H. by apply list_elem_of_In.
Qed.

Lemma hasOldKeys_iff (d : prayerMap) :
  existsb (truthyAt d) legacyOnlyKeys = true
  ↔ ∃ k, k ∈ legacyOnlyKeys ∧ is_Some (d !! k).
Proof.
  rewrite existsb_exists. split.
  - intros (k & Hk & Ht). exists k. split; [by apply list_elem_of_In|].
    by apply truthyAt_true.
  - intros (k & Hk & Ht). exists k. split; [by apply list_elem_of_In|].
    by apply truthyAt_true.
Qed.

Lemma renameLegacyKeys_lookup (d : prayerMap) oldKey newKey :
  (oldKey, newKey) ∈ OLD_TO_NEW →
  renameLegacyKeys d !! newKey = Some (default zeroCounters (d !! oldKey)).
Proof.
  unfold OLD_TO_NEW. rewrite !elem_of_cons, elem_of_nil.
  unfold renameLegacyKeys; cbn [foldl OLD_TO_NEW].
  intros [H|[H|[H|[H|[H|[]]]]]]; injection H as -> ->;
    repeat (first [ by rewrite lookup_insert_eq
                  | rewrite lookup_insert_ne by done ]).
Qed.

Lemma renameLegacyKeys_dom (d : prayerMap) : dom (renameLegacyKeys d) = currentKeys.
Proof.
  unfold renameLegacyKeys, currentKeys; cbn [foldl OLD_TO_NEW PRAYERS list_to_set].
  rewrite !dom_insert_L, dom_empty_L. set_solver.
Qed.

Lemma migratePrayerNames_cases (d : prayerMap) :
  migratePrayerNames (Some d)
  = if forallb (truthyAt d) PRAYERS then Some d
    else if existsb (truthyAt d) legacyOnlyKeys then Some (renameLegacyKeys d)
    else Some d.
Proof.
  unfold migratePrayerNames, legacyOnlyKeys.
  destruct (forallb _ _); [done|]. by destruct (existsb _ _).
Qed.

Lemma migratePrayerNames_all_new (d : prayerMap) :
  (∀ p, p ∈ PRAYERS → is_Some (d !! p)) → migratePrayerNames (Some d) = Some d.
Proof.
  intros Hall. rewrite migratePrayerNames_cases.
  apply hasAllNewKeys_iff in Hall. by rewrite Hall.
Qed.

Lemma migratePrayerNames_renames (d : prayerMap) :
  (∃ p, p ∈ PRAYERS ∧ d !! p = None) →
  (∃ k, k ∈ legacyOnlyKeys ∧ is_Some (d !! k)) →
  migratePrayerNames (Some d) = Some (renameLegacyKeys d).
Proof.
  intros (p & Hp & Hnone) Hold. rewrite migratePrayerNames_cases.
  destruct (forallb _ _) eqn:Hall.
  { rewrite hasAllNewKeys_iff in Hall. destruct (Hall p Hp) as [c Hc]. congruence. }
  apply hasOldKeys_iff in Hold. by rewrite Hold.
Qed.

Lemma migratePrayerNames_no_legacy (d : prayerMap) :
  (∀ k, k ∈ legacyOnlyKeys → d !! k = None) →
  migratePrayerNames (Some d) = Some d.
Proof.
  intros Hold. rewrite migratePrayerNames_cases.
  destruct (forallb _ _); [done|].
  destruct (existsb _ _) eqn:Hex; [|done].
  apply hasOldKeys_iff in Hex. destruct Hex as (k & Hk & [c Hc]).
  rewrite (Hold k Hk) in Hc. discriminate.
Qed.

Lemma migratePrayerNames_not_migrates (d : prayerMap) :
  ¬ migrates d → migratePrayerNames (Some d) = Some d.
Proof.
  intros Hnot. rewrite migratePrayerNames_cases.
  destruct (forallb _ _) eqn:Hall; [done|].
  destruct (existsb _ _) eqn:Hex; [|done].
  exfalso. apply Hnot. split; [|by apply hasOldKeys_iff].
  destruct (decide (Exists (λ p, d !! p = None) PRAYERS)) as [Hmiss|Hno].
  { by apply Exists_exists in Hmiss. }
  assert (Hyes : forallb (truthyAt d) PRAYERS = true); [|congruence].
  apply hasAllNewKeys_iff. intros p Hp.
  destruct (d !! p) as [c|] eqn:Hd; [by eexists|].
  destruct Hno. apply Exists_exists. by exists p.
Qed.

(** C3, as stated, fails on a mapping whose only key is Maghrib: a current
    key is missing and a key of the earlier generation is present, yet the
    mapping is returned as it is, and Subuh gets no default entry. *)
Lemma migratePrayerNames_maghrib_only :
  (∃ p, p ∈ PRAYERS ∧ maghribOnly !! p = None)
  ∧ (∃ k, k ∈ LEGACY_PRAYERS ∧ is_Some (maghribOnly !! k))
  ∧ migratePrayerNames (Some maghribOnly) = Some maghribOnly
  ∧ (migratePrayerNames (Some maghribOnly) ≫= (.!! "Subuh"%string))
    ≠ Some zeroCounters.
Proof.
  split; [exists "Subuh"%string; split; [set_solver | reflexivity]|].
  split; [exists "Maghrib"%string; split; [set_solver | by eexists]|].
  split; [reflexivity|]. discriminate.
Qed.

(** C3, amended.  A mapping that has every current name is returned
    unchanged, whatever else it holds.  A mapping that lacks a current name
    and has one of Fajr, Dhuhr, Asr, Isha is replaced by one with exactly
    the five current names, each holding the counters of its earlier name,
    or [{0, 0, 0}] where the earlier name is absent.  A mapping that lacks
    a current name and has none of those four (Maghrib, common to both
    generations, does not count) is returned unchanged. *)
Theorem migratePrayerNames_spec (d : prayerMap) :
  ((∀ p, p ∈ PRAYERS → is_Some (d !! p)) → migratePrayerNames (Some d) = Some d)
  ∧ ((∃ p, p ∈ PRAYERS ∧ d !! p = None) →
     (∃ k, k ∈ legacyOnlyKeys ∧ is_Some (d !! k)) →
     ∃ m, migratePrayerNames (Some d) = Some m
          ∧ dom m = currentKeys
          ∧ ∀ oldKey newKey, (oldKey, newKey) ∈ OLD_TO_NEW →
              m !! newKey = Some (default zeroCounters (d !! oldKey)))
  ∧ ((∃ p, p ∈ PRAYERS ∧ d !! p = None) →
     (∀ k, k ∈ legacyOnlyKeys → d !! k = None) →
     migratePrayerNames (Some d) = Some d).
Proof.
  split; [|split].
  - apply migratePrayerNames_all_new.
  - intros Hmiss Hold. exists (renameLegacyKeys d).
    split; [by apply migratePrayerNames_renames|]. split.
    + apply renameLegacyKeys_dom.
    + intros oldKey newKey. apply renameLegacyKeys_lookup.
  - intros _. apply migratePrayerNames_no_legacy.
Qed.

(** C3 on a backup of the earlier generation: Fajr's counters [{5, 2, 1}]
    arrive under Subuh. *)
Lemma migratePrayerNames_spec_witness :
  ∃ m, migratePrayerNames (Some legacyPrayers) = Some m
       ∧ dom m = currentKeys
       ∧ m !! "Subuh"%string = Some (Counters (JNum 5) (JNum 2) (JNum 1))
       ∧ m !! "Maghrib"%string = Some zeroCounters.
Proof.
  destruct (migratePrayerNames_spec legacyPrayers) as (_ & Hmig & _).
  destruct Hmig as (m & Hm & Hdom & Hlook).
  - exists "Subuh"%string. split; [in_list | reflexivity].
  - exists "Fajr"%string. split; [in_list | by eexists].
  - exists m. split; [exact Hm|]. split; [exact Hdom|]. split.
    + rewrite (Hlook "Fajr"%string "Subuh"%string) by in_list. reflexivity.
    + rewrite (Hlook "Maghrib"%string "Maghrib"%string) by in_list. reflexivity.
Defined.

(** Stray earlier names next to the full current set are kept as they
    are. *)
Example migratePrayerNames_stray_key :
  migratePrayerNames (Some strayPrayers) = Some strayPrayers.
Proof. reflexivity. Qed.

(** ** The key set of the ledger *)

Lemma currentKeys_elem p : p ∈ currentKeys ↔ p ∈ PRAYERS.
Proof. unfold currentKeys. apply elem_of_list_to_set. Qed.

Lemma getDefaultPrayerData_dom : dom getDefaultPrayerData = currentKeys.
Proof.
  unfold getDefaultPrayerData, defaultPrayerDataFor, currentKeys.
  cbn [fmap list_fmap PRAYERS list_to_map foldr list_to_set uncurry fst snd].
  rewrite !dom_insert_L, dom_empty_L. done.
Qed.

Lemma insert_keeps_currentKeys (m : prayerMap) p c :
  dom m = currentKeys → p ∈ PRAYERS → dom (<[p := c]> m) = currentKeys.
Proof.
  intros Hdom Hp. rewrite dom_insert_L, Hdom.
  apply currentKeys_elem in Hp. set_solver.
Qed.

Lemma migrated_or_same_dom (d : prayerMap) :
  dom d = currentKeys ∨ migrates d →
  dom (default d (migratePrayerNames (Some d))) = currentKeys
  ∧ dom (default getDefaultPrayerData (migratePrayerNames (Some d))) = currentKeys.
Proof.
  intros [Hdom|[Hmiss Hold]].
  - rewrite migratePrayerNames_all_new; [done|]. intros p Hp.
    apply elem_of_dom. rewrite Hdom. by apply currentKeys_elem.
  - rewrite (migratePrayerNames_renames d Hmiss Hold). cbn [default].
    split; apply renameLegacyKeys_dom.
Qed.

Lemma adoptRemote_prayers data w :
  prayers (adoptRemote data w)
  = match data ≫= sv_prayers with
    | Some d => default d (migratePrayerNames (Some d))
    | None => prayers w
    end.
Proof.
  destruct w, data as [[[d|] [t|]]|]; reflexivity.
Qed.

Lemma adoptRemote_dom data w :
  dom (prayers w) = currentKeys → keysLoadable data →
  dom (prayers (adoptRemote data w)) = currentKeys.
Proof.
  intros Hw Hdata. rewrite adoptRemote_prayers.
  destruct (data ≫= sv_prayers) as [d|] eqn:Hd; [|done].
  by apply migrated_or_same_dom, Hdata.
Qed.

Lemma loadEffect_prayers online w :
  prayers (loadEffect online w) = prayers w
  ∨ ∃ u, currentUser w = Some u
         ∧ prayers (loadEffect online w)
           = prayers (adoptRemote (loadFromFirestore (firestore w) u) w).
Proof.
  unfold loadEffect. destruct (currentUser w) as [u|] eqn:Hu; [|by left].
  destruct online.
  - right. exists u. split; [done|].
    by destruct (adoptRemote (loadFromFirestore (firestore w) u) w).
  - left. by destruct w.
Qed.

Lemma handleLogin_prayers loginUsername loginPin online w :
  prayers (handleLogin loginUsername loginPin online w) = prayers w
  ∨ ∃ data, loginUser (firestore w) (trim loginUsername) (trim loginPin)
            = LoginOk data
            ∧ prayers (handleLogin loginUsername loginPin online w)
              = prayers (adoptRemote data w).
Proof.
  unfold handleLogin.
  destruct (_ || _); [left; by destruct w|].
  destruct online; cbn [negb]; [|left; by destruct w].
  replace (firestore (setLoginError "" w)) with (firestore w) by (by destruct w).
  destruct (loginUser _ _ _) as [error|data]; [left; by destruct w|].
  right. exists data. split; [done|].
  destruct w, data as [[[d|] [t|]]|]; reflexivity.
Qed.

Lemma loginUser_tracker db username pin0 data :
  loginUser db username pin0 = LoginOk data →
  ∃ doc, db !! getUserDoc username = Some doc ∧ tracker doc = data.
Proof.
  unfold loginUser. destruct (db !! getUserDoc username) as [doc|]; [|done].
  case_bool_decide; [|done]. intros [= <-]. by exists doc.
Qed.

(** C7, as stated, fails on the load from the cache: a stored mapping with
    the five current names and a stray earlier name passes the migration
    unchanged, and the ledger starts with six keys. *)
Lemma load_keeps_stray_key :
  let loaded := initPrayers (Some (MkSaved (Some strayPrayers) (Some 0))) in
  loaded = strayPrayers
  ∧ (∀ p, p ∈ PRAYERS → is_Some (loaded !! p))
  ∧ is_Some (loaded !! "Fajr"%string)
  ∧ dom loaded ≠ currentKeys.
Proof.
  split; [reflexivity|]. split; [|split].
  - apply Forall_forall. apply (bool_decide_unpack _). vm_compute. exact I.
  - by eexists.
  - intros Hdom.
    assert (Hin : "Fajr"%string ∈ currentKeys).
    { rewrite <- Hdom. apply elem_of_dom. by eexists. }
    apply currentKeys_elem in Hin. revert Hin. apply (bool_decide_unpack _).
    vm_compute. exact I.
Qed.

(** [handleImport] calls [setPrayers] on the mapping of the document
    without running [migratePrayerNames]: after the import of a backup
    written by an earlier version, the state holds the earlier names. *)
Lemma handleImport_keeps_legacy_keys :
  let w := handleImport (Some (MkSaved (Some legacyPrayers) None)) sampleWorld in
  dom (prayers sampleWorld) = currentKeys
  ∧ prayers w = legacyPrayers
  ∧ prayers w !! "Subuh"%string = None
  ∧ dom (prayers w) ≠ currentKeys.
Proof.
  split; [|split; [reflexivity|split; [reflexivity|]]].
  - change (prayers sampleWorld) with samplePrayers.
    apply insert_keeps_currentKeys; [apply getDefaultPrayerData_dom | in_list].
  - intros Hdom.
    assert (Hin : "Subuh"%string ∈ dom (prayers (handleImport (Some (MkSaved (Some legacyPrayers) None)) sampleWorld))).
    { rewrite Hdom. apply currentKeys_elem. in_list. }
    apply elem_of_dom in Hin. destruct Hin as [c Hc]. discriminate Hc.
Qed.

Lemma handleRegister_prayers loginUsername loginPin now online w :
  prayers (handleRegister loginUsername loginPin now online w) = prayers w
  ∨ prayers (handleRegister loginUsername loginPin now online w)
    = getDefaultPrayerData.
Proof.
  unfold handleRegister.
  destruct (_ || _); [left; by destruct w|].
  destruct (_ <? _)%nat; [left; by destruct w|].
  destruct online; cbn [negb]; [|left; by destruct w].
  destruct (registerUser _ _ _) as [[error|] db]; [left; by destruct w|].
  right. by destruct w.
Qed.

(** C7, amended.  The default ledger has exactly the five current names.
    Setting a total, setting a target, recording completions (for one of
    the five names) and resetting the week keep the key set when it is
    exactly the five current names; so does a registration.  The load from
    the cache, the load from the remote store and the login produce exactly
    the five current names when the stored mapping has exactly these keys
    or is one that the migration rewrites; a stored mapping that the
    migration does not rewrite is adopted as it is. *)
Theorem ledger_keys (w : World) :
  dom getDefaultPrayerData = currentKeys
  ∧ (∀ p v, dom (prayers w) = currentKeys → p ∈ PRAYERS →
       dom (prayers (handleSetTotal p v w)) = currentKeys
       ∧ dom (prayers (handleSetWeeklyTarget p v w)) = currentKeys
       ∧ ∃ w', handleAddCompleted p w = Some w'
               ∧ dom (prayers w') = currentKeys)
  ∧ (∀ now, dom (prayers w) = currentKeys →
       dom (prayers (resetWeek now w)) = currentKeys)
  ∧ (∀ u p now online, dom (prayers w) = currentKeys →
       dom (prayers (handleRegister u p now online w)) = currentKeys)
  ∧ (∀ saved, keysLoadable saved → dom (initPrayers saved) = currentKeys)
  ∧ (∀ d t, ¬ migrates d →
       initPrayers (Some (MkSaved (Some d) t)) = d
       ∧ prayers (adoptRemote (Some (MkSaved (Some d) t)) w) = d)
  ∧ (∀ online, dom (prayers w) = currentKeys →
       (∀ u doc, firestore w !! u = Some doc → keysLoadable (tracker doc)) →
       dom (prayers (loadEffect online w)) = currentKeys
       ∧ ∀ u p, dom (prayers (handleLogin u p online w)) = currentKeys).
Proof.
  split; [apply getDefaultPrayerData_dom|].
  split; [|split; [|split; [|split; [|split]]]].
  - intros p v Hdom Hp. split; [|split].
    + replace (prayers (handleSetTotal p v w))
        with (<[p := withTotalQada (spread (prayers w !! p))
                        (JNum (clampInput (Some v)))]> (prayers w))
        by (by destruct w).
      by apply insert_keeps_currentKeys.
    + replace (prayers (handleSetWeeklyTarget p v w))
        with (<[p := withWeeklyTarget (spread (prayers w !! p))
                        (JNum (clampInput (Some v)))]> (prayers w))
        by (by destruct w).
      by apply insert_keeps_currentKeys.
    + unfold handleAddCompleted.
      destruct (_ =? 0); [by exists w|].
      assert (Hin : p ∈ dom (prayers w)) by (by rewrite Hdom, currentKeys_elem).
      apply elem_of_dom in Hin. destruct Hin as [d Hd]. rewrite Hd.
      eexists. split; [reflexivity|].
      destruct w; world_simpl. by apply insert_keeps_currentKeys.
  - intros now Hdom.
    replace (prayers (resetWeek now w)) with (zeroCompleted PRAYERS (prayers w))
      by (by destruct w).
    rewrite zeroCompleted_dom, Hdom. unfold currentKeys. set_solver.
  - intros u p now online Hdom.
    destruct (handleRegister_prayers u p now online w) as [-> | ->];
      [done | apply getDefaultPrayerData_dom].
  - intros saved Hsaved. unfold initPrayers.
    destruct (saved ≫= sv_prayers) as [d|] eqn:Hd;
      [|apply getDefaultPrayerData_dom].
    by apply migrated_or_same_dom, Hsaved.
  - intros d t Hnot. split.
    + unfold initPrayers. cbn [mbind option_bind sv_prayers].
      by rewrite migratePrayerNames_not_migrates.
    + rewrite adoptRemote_prayers. cbn [mbind option_bind sv_prayers].
      by rewrite migratePrayerNames_not_migrates.
  - intros online Hdom Hdb. split.
    + destruct (loadEffect_prayers online w) as [-> | (u & Hu & ->)]; [done|].
      apply adoptRemote_dom; [done|]. unfold loadFromFirestore.
      destruct (firestore w !! getUserDoc u) as [doc|] eqn:Hdoc;
        [by eapply Hdb | by intros d].
    + intros u p.
      destruct (handleLogin_prayers u p online w) as [-> | (data & Hdata & ->)];
        [done|].
      apply adoptRemote_dom; [done|].
      apply loginUser_tracker in Hdata. destruct Hdata as (doc & Hdoc & <-).
      by eapply Hdb.
Qed.

(** C7 at a concrete state: a total set on the sample ledger, and the
    earlier-generation backup loaded from the cache. *)
Lemma ledger_keys_witness :
  dom (prayers (handleSetTotal "Asar" "7" sampleWorld)) = currentKeys
  ∧ dom (initPrayers (Some (MkSaved (Some legacyPrayers) None))) = currentKeys.
Proof.
  destruct (ledger_keys sampleWorld) as (_ & Hmut & _ & _ & Hinit & _).
  split.
  - apply (Hmut "Asar"%string "7"%string); [|in_list].
    change (prayers sampleWorld) with samplePrayers.
    apply insert_keeps_currentKeys; [apply getDefaultPrayerData_dom | in_list].
  - apply Hinit. intros d [= <-]. right. split.
    + exists "Subuh"%string. split; [in_list | reflexivity].
    + exists "Fajr"%string. split; [in_list | by eexists].
Defined.

(** ** The weekly backup e-mail and its guard *)

Lemma summaryOf_is_Some names (prayerData : prayerMap) :
  (∀ p, p ∈ names → is_Some (prayerData !! p)) →
  is_Some (summaryOf names prayerData).
Proof.
  intros Hall. unfold summaryOf. apply fmap_is_Some, mapM_is_Some.
  apply Forall_forall. intros p Hp. cbn. apply fmap_is_Some. by apply Hall.
Qed.

(** C8.  With the guard at today's date, [sendBackupEmail(data, false)]
    does nothing.  With [skipGuard] the guard is not looked at, and the
    e-mail goes out; without it the e-mail goes out when the guard is not
    today's date.  When the delivery succeeds the guard becomes the date of
    the e-mail, and a further guarded call on that day does nothing.  When
    it fails the error is shown, the guard keeps its value, and a later
    guarded call sends as it would have. *)
Theorem sendBackupEmail_guard (names : list string) (prayerData : prayerMap)
    (now : Z) (w : World) :
  (lsEmailSent w = Some (isoDay now) →
   sendBackupEmail names prayerData false now w = Some w)
  ∧ (∀ summary, summaryOf names prayerData = Some summary →
       let sent := setSentEmails
                     (sentEmails w ++ [MkEmail (isoDay now) summary prayerData]) w in
       sendBackupEmail names prayerData true now w = Some sent
       ∧ (lsEmailSent w ≠ Some (isoDay now) →
          sendBackupEmail names prayerData false now w = Some sent))
  ∧ (let w' := emailSettled (isoDay now) None w in
     lsEmailSent w' = Some (isoDay now)
     ∧ sendBackupEmail names prayerData false now w' = Some w')
  ∧ (∀ err, let w' := emailSettled (isoDay now) (Some err) w in
       lsEmailSent w' = lsEmailSent w
       ∧ alerts w' = alerts w ++ [("Email failed: " +:+ errorText err)%string]
       ∧ ∀ later summary,
           summaryOf names prayerData = Some summary →
           lsEmailSent w ≠ Some (isoDay later) →
           sendBackupEmail names prayerData false later w'
           = Some (setSentEmails
                     (sentEmails w' ++ [MkEmail (isoDay later) summary prayerData])
                     w')).
Proof.
  split; [|split; [|split]].
  - intros Hguard. unfold sendBackupEmail. cbn [negb andb].
    by rewrite bool_decide_eq_true_2.
  - intros summary Hsum sent. unfold sendBackupEmail. split.
    + cbn [negb andb]. by rewrite Hsum.
    + intros Hguard. cbn [negb andb].
      rewrite bool_decide_eq_false_2 by done. by rewrite Hsum.
  - assert (Hg : lsEmailSent (emailSettled (isoDay now) None w) = Some (isoDay now))
      by (by destruct w).
    split; [exact Hg|].
    unfold sendBackupEmail. cbn [negb andb]. by rewrite bool_decide_eq_true_2.
  - intros err w'.
    assert (Hg : lsEmailSent w' = lsEmailSent w) by (by destruct w).
    split; [exact Hg|]. split; [by destruct w|].
    intros later summary Hsum Hguard. unfold sendBackupEmail. cbn [negb andb].
    rewrite Hg, bool_decide_eq_false_2 by done. by rewrite Hsum.
Qed.

(** C8 at a concrete state: the guard is at day 3 and the clock is within
    day 3. *)
Lemma sendBackupEmail_guard_witness :
  let w := setLsEmailSent (Some 3) sampleWorld in
  let now := 3 * msPerDay + 5000 in
  sendBackupEmail PRAYERS (prayers w) false now w = Some w.
Proof.
  intros w now.
  destruct (sendBackupEmail_guard PRAYERS (prayers w) now w) as (Hnoop & _).
  apply Hnoop. reflexivity.
Defined.

(** A send, a failed delivery, then a retry: both e-mails reach the sink,
    the guard is still unset, and the failure was shown. *)
Example sendBackupEmail_retry_after_failure :
  let err := MkSendError None (Some "Network Error"%string) "{}" in
  let run :=
    w1 ← sendBackupEmail PRAYERS samplePrayers false 5000 sampleWorld;
    sendBackupEmail PRAYERS samplePrayers false 6000
      (emailSettled (isoDay 5000) (Some err) w1) in
  (length ∘ sentEmails <$> run) = Some 2%nat
  ∧ (lsEmailSent <$> run) = Some None
  ∧ (alerts <$> run) = Some ["Email failed: Network Error"%string].
Proof. vm_compute. done. Qed.

(** ** The notification at a reset *)

(** C6, as stated, fails on the Firestore version: the cycle is expired, the
    guard has never been set, and neither the auto-reset nor a manual reset
    hands anything to the e-mail service. *)
Lemma resetWeek_sends_no_email :
  let now := 8 * msPerDay in
  shouldAutoReset now (weekStartDate sampleWorld) = true
  ∧ lsEmailSent sampleWorld = None
  ∧ prayers (autoResetEffect now sampleWorld) ≠ prayers sampleWorld
  ∧ sentEmails (autoResetEffect now sampleWorld) = []
  ∧ sentEmails (resetWeek now sampleWorld) = [].
Proof.
  split; [reflexivity|]. split; [reflexivity|]. split; [|split; reflexivity].
  intros Heq.
  assert (Hc : prayers (autoResetEffect (8 * msPerDay) sampleWorld) !! "Subuh"%string
               = prayers sampleWorld !! "Subuh"%string) by (by rewrite Heq).
  vm_compute in Hc. discriminate Hc.
Qed.

(** C6, amended.  In the version of the component that has the e-mail
    backup switched on, every reset, manual or through the auto-reset
    effect, first calls [sendBackupEmail] on the mapping as it is before
    the reset and then zeroes the counters: the e-mail handed to the
    service, if the guard lets one out, carries the summary and the backup
    of the week that just ended.  In the Firestore version and in the first
    version a reset hands nothing to the e-mail service. *)
Theorem reset_notification (now : Z) (w : World) :
  ((∀ p, p ∈ LEGACY_PRAYERS → is_Some (prayers w !! p)) →
   ∃ summary w1,
     summaryOf LEGACY_PRAYERS (prayers w) = Some summary
     ∧ sendBackupEmail LEGACY_PRAYERS (prayers w) false now w = Some w1
     ∧ sentEmails w1
       = (if bool_decide (lsEmailSent w = Some (isoDay now)) then sentEmails w
          else sentEmails w ++ [MkEmail (isoDay now) summary (prayers w)])
     ∧ prayers w1 = prayers w
     ∧ EmailVersion.resetWeek now w
       = Some (setWeekStartDate now
                 (setPrayers (zeroCompleted LEGACY_PRAYERS (prayers w)) w1))
     ∧ (shouldAutoReset now (weekStartDate w) = true →
        EmailVersion.autoResetEffect now w = EmailVersion.resetWeek now w))
  ∧ sentEmails (resetWeek now w) = sentEmails w
  ∧ sentEmails (autoResetEffect now w) = sentEmails w
  ∧ sentEmails (FirstVersion.resetWeek now w) = sentEmails w
  ∧ sentEmails (FirstVersion.autoResetEffect now w) = sentEmails w.
Proof.
  split.
  - intros Hall.
    destruct (summaryOf_is_Some LEGACY_PRAYERS (prayers w) Hall) as [summary Hsum].
    exists summary.
    destruct (decide (lsEmailSent w = Some (isoDay now))) as [Hg|Hg].
    + exists w.
      assert (Hsend : sendBackupEmail LEGACY_PRAYERS (prayers w) false now w = Some w).
      { unfold sendBackupEmail. cbn [negb andb]. by rewrite bool_decide_eq_true_2. }
      split; [done|]. split; [done|].
      split; [by rewrite bool_decide_eq_true_2|]. split; [done|]. split.
      * unfold EmailVersion.resetWeek. by rewrite Hsend.
      * intros Hexp. unfold EmailVersion.autoResetEffect. by rewrite Hexp.
    + exists (setSentEmails
                (sentEmails w ++ [MkEmail (isoDay now) summary (prayers w)]) w).
      assert (Hsend : sendBackupEmail LEGACY_PRAYERS (prayers w) false now w
                      = Some (setSentEmails
                                (sentEmails w
                                   ++ [MkEmail (isoDay now) summary (prayers w)]) w)).
      { unfold sendBackupEmail. cbn [negb andb].
        rewrite bool_decide_eq_false_2 by done. by rewrite Hsum. }
      split; [done|]. split; [done|].
      split; [rewrite bool_decide_eq_false_2 by done; by destruct w|].
      split; [by destruct w|]. split.
      * unfold EmailVersion.resetWeek. by rewrite Hsend.
      * intros Hexp. unfold EmailVersion.autoResetEffect. by rewrite Hexp.
  - unfold autoResetEffect, FirstVersion.autoResetEffect.
    destruct (shouldAutoReset now (weekStartDate w)); by destruct w.
Qed.

(** C6 on the version with the backup: the e-mail of a reset shows the 1
    completed of the week that ends, and the ledger afterwards shows 0. *)
Lemma reset_notification_witness :
  let w := setPrayers legacyPrayers sampleWorld in
  ∃ w', EmailVersion.resetWeek (8 * msPerDay) w = Some w'
        ∧ em_summary <$> sentEmails w'
          = [("Fajr: 1 completed | 5 remaining" +:+ newline
              +:+ "Dhuhr: 0 completed | 0 remaining" +:+ newline
              +:+ "Asr: 0 completed | 0 remaining" +:+ newline
              +:+ "Maghrib: 0 completed | 0 remaining" +:+ newline
              +:+ "Isha: 0 completed | 0 remaining")%string]
        ∧ completedThisWeek <$> prayers w' !! "Fajr"%string = Some (JNum 0).
Proof.
  intros w.
  destruct (reset_notification (8 * msPerDay) w) as (Hreset & _).
  destruct Hreset as (summary & w1 & Hsum & Hsend & Hsent & Hpr & Hreset & _).
  - intros p Hp. apply (bool_decide_unpack _).
    revert p Hp. apply Forall_forall. apply (bool_decide_unpack _).
    vm_compute. exact I.
  - eexists. split; [exact Hreset|].
    injection Hsum as <-. injection Hsend as <-.
    split; reflexivity.
Defined.

(** ** Suppression of the save that would echo a load *)

Lemma adoptRemote_skipNextSync d p w :
  sv_prayers d = Some p → skipNextSync (adoptRemote (Some d) w) = true.
Proof. intros Hp. destruct w, d as [d' [t|]]; cbn in Hp; by subst. Qed.

(** C9, as stated, fails on import: with the session of "alice" open, the
    import of a backup of the current version (all five names present, so
    the component renders it) leaves the flag off, and the persist effect
    that follows writes the imported ledger to the remote store. *)
Lemma import_is_saved_remotely :
  let w := handleImport (Some (MkSaved (Some backupPrayers) None)) sessionWorld in
  (∀ p, p ∈ PRAYERS → is_Some (prayers w !! p))
  ∧ skipNextSync w = false
  ∧ saveAttempts sessionWorld = []
  ∧ saveAttempts (persistEffect true w)
    = [("alice"%string, MkSaved (Some backupPrayers) (Some 1793491200000))]
  ∧ (firestore (persistEffect true w) !! "alice"%string) ≫= tracker
    = Some (MkSaved (Some backupPrayers) (Some 1793491200000)).
Proof.
  split; [|repeat split].
  apply Forall_forall. apply (bool_decide_unpack _). vm_compute. exact I.
Qed.

(** C9, amended.  The load from the remote store and the login switch the
    flag on when they adopt a remote ledger.  With the flag on, the next
    run of the persist effect writes the cache, makes no remote save and
    switches the flag off, whatever the state of the connection; the run
    after that makes its remote save.  With the flag off and a session
    open, the persist effect makes its remote save.  An import does not
    touch the flag, and with a session open the persist effect that
    follows the import of a mapping with the five current names (one that
    the component renders) saves the imported ledger remotely. *)
Theorem skipNextSync_suppresses_one_save (w : World) :
  (∀ u d p,
     currentUser w = Some u →
     loadFromFirestore (firestore w) u = Some d →
     sv_prayers d = Some p →
     skipNextSync (loadEffect true w) = true)
  ∧ (∀ loginUsername loginPin d p,
       trim loginUsername ≠ ""%string →
       trim loginPin ≠ ""%string →
       loginUser (firestore w) (trim loginUsername) (trim loginPin)
       = LoginOk (Some d) →
       sv_prayers d = Some p →
       skipNextSync (handleLogin loginUsername loginPin true w) = true)
  ∧ (∀ online, skipNextSync w = true →
       let ledger := MkSaved (Some (prayers w)) (Some (weekStartDate w)) in
       let w' := persistEffect online w in
       lsTracker w' = Some ledger
       ∧ saveAttempts w' = saveAttempts w
       ∧ firestore w' = firestore w
       ∧ skipNextSync w' = false
       ∧ ∀ online' u, currentUser w = Some u →
           saveAttempts (persistEffect online' w') = saveAttempts w ++ [(u, ledger)])
  ∧ (∀ online u, skipNextSync w = false → currentUser w = Some u →
       let ledger := MkSaved (Some (prayers w)) (Some (weekStartDate w)) in
       let w' := persistEffect online w in
       lsTracker w' = Some ledger
       ∧ saveAttempts w' = saveAttempts w ++ [(u, ledger)]
       ∧ skipNextSync w' = false)
  ∧ (∀ imported, skipNextSync (handleImport imported w) = skipNextSync w)
  ∧ (∀ online u doc d, skipNextSync w = false → currentUser w = Some u →
       sv_prayers doc = Some d →
       (∀ q, q ∈ PRAYERS → is_Some (d !! q)) →
       saveAttempts (persistEffect online (handleImport (Some doc) w))
       = saveAttempts w
           ++ [(u, MkSaved (Some d)
                     (Some (default (weekStartDate w) (sv_weekStartDate doc))))]).
Proof.
  split; [|split; [|split; [|split; [|split]]]].
  - intros u d p Hu Hd Hp. unfold loadEffect. rewrite Hu, Hd.
    rewrite <- (adoptRemote_skipNextSync d p w Hp).
    by destruct (adoptRemote (Some d) w).
  - intros loginUsername loginPin d p Hu Hpin Hlogin Hp. unfold handleLogin.
    rewrite !bool_decide_eq_false_2 by done. cbn [orb negb].
    replace (firestore (setLoginError "" w)) with (firestore w) by (by destruct w).
    rewrite Hlogin.
    match goal with
    | |- skipNextSync (setSyncStatus synced (adoptRemote _ ?w0)) = _ =>
        rewrite <- (adoptRemote_skipNextSync d p w0 Hp);
        by destruct (adoptRemote (Some d) w0)
    end.
  - intros online Hskip ledger w'. subst ledger w'.
    destruct w; cbn in Hskip; subst. unfold persistEffect. world_simpl.
    repeat split. intros online' u [= ->]. by destruct online'.
  - intros online u Hskip Hu ledger w'. subst ledger w'.
    destruct w; cbn in Hskip, Hu; subst. unfold persistEffect. world_simpl.
    by destruct online.
  - intros [[[d|] [t|]]|]; by destruct w.
  - intros online u [d' t] d Hskip Hu [= ->] _.
    destruct w; cbn in Hskip, Hu; subst.
    destruct t, online; reflexivity.
Qed.

(** C9 at a concrete state: the remote store holds a ledger for the open
    session; the load adopts it and the persist effect that follows saves
    nothing remotely. *)
Lemma skipNextSync_suppresses_one_save_witness :
  let remote := MkSaved (Some legacyPrayers) (Some 1000) in
  let w := setFirestore {["alice"%string := MkUserDoc (Some "1234"%string) (Some remote)]}
             aliceWorld in
  skipNextSync (loadEffect true w) = true
  ∧ saveAttempts (persistEffect true (loadEffect true w)) = [].
Proof.
  intros remote w.
  destruct (skipNextSync_suppresses_one_save w) as (Hload & _).
  destruct (skipNextSync_suppresses_one_save (loadEffect true w))
    as (_ & _ & Hpersist & _).
  assert (Hflag : skipNextSync (loadEffect true w) = true).
  { apply (Hload "alice"%string remote legacyPrayers); reflexivity. }
  split; [exact Hflag|].
  destruct (Hpersist true Hflag) as (_ & Hattempts & _).
  rewrite Hattempts. reflexivity.
Defined.

(** ** Registration *)

(** C10.  A registration that succeeds (a username and a PIN that are not
    blank, a PIN of four characters or more, a username that is free, the
    calls to the store resolving) replaces the ledger in memory, whatever
    it held, by the default mapping, every current name at [{0, 0, 0}], and
    sets [weekStartDate] to the time of the registration; the session is
    opened and the new remote document has no tracker.  The username and
    the PIN are ASCII text, the username with no "/". *)
Theorem handleRegister_fresh_ledger (loginUsername loginPin : string)
    (now : Z) (w : World) :
  docId loginUsername = true →
  asciiOnly loginPin = true →
  trim loginUsername ≠ ""%string →
  (4 ≤ String.length (trim loginPin))%nat →
  firestore w !! getUserDoc (trim loginUsername) = None →
  let w' := handleRegister loginUsername loginPin now true w in
  prayers w' = getDefaultPrayerData
  ∧ (∀ p, p ∈ PRAYERS → prayers w' !! p = Some zeroCounters)
  ∧ dom (prayers w') = currentKeys
  ∧ weekStartDate w' = now
  ∧ currentUser w' = Some (toLowerCase (trim loginUsername))
  ∧ firestore w' !! getUserDoc (trim loginUsername)
    = Some (MkUserDoc (Some (trim loginPin)) None).
Proof.
  intros _ _ Hu Hlen Hfree w'.
  assert (Hpin : trim loginPin ≠ ""%string).
  { intros Heq. rewrite Heq in Hlen. cbn in Hlen. lia. }
  assert (Hw' : w' = setSyncStatus synced
                  (setWeekStartDate now
                     (setPrayers getDefaultPrayerData
                        (setCurrentUser (Some (toLowerCase (trim loginUsername)))
                           (setLsUser (Some (toLowerCase (trim loginUsername)))
                              (setFirestore
                                 (<[getUserDoc (trim loginUsername)
                                    := MkUserDoc (Some (trim loginPin)) None]>
                                    (firestore w))
                                 (setLoginError "" w))))))).
  { subst w'. unfold handleRegister.
    rewrite !bool_decide_eq_false_2 by done. cbn [orb negb].
    destruct (Nat.ltb_spec (String.length (trim loginPin)) 4) as [?|_]; [lia|].
    replace (firestore (setLoginError "" w)) with (firestore w) by (by destruct w).
    unfold registerUser. by rewrite Hfree. }
  assert (Hpr : prayers w' = getDefaultPrayerData) by (rewrite Hw'; by destruct w).
  split; [exact Hpr|]. split; [|split; [|split; [|split]]].
  - intros p Hp. rewrite Hpr. revert p Hp. apply Forall_forall.
    repeat constructor.
  - rewrite Hpr. apply getDefaultPrayerData_dom.
  - rewrite Hw'. by destruct w.
  - rewrite Hw'. by destruct w.
  - rewrite Hw'. destruct w; world_simpl. apply lookup_insert_eq.
Qed.

(** C10 at a concrete state: the sample ledger, with a backlog of 5 for
    Subuh, is gone after "Alice" registers. *)
Lemma handleRegister_fresh_ledger_witness :
  let w' := handleRegister " Alice " "1234" 777 true sampleWorld in
  prayers sampleWorld !! "Subuh"%string = Some sampleCounters
  ∧ prayers w' = getDefaultPrayerData
  ∧ weekStartDate w' = 777
  ∧ currentUser w' = Some "alice"%string.
Proof.
  intros w'. split; [reflexivity|].
  destruct (handleRegister_fresh_ledger " Alice " "1234" 777 sampleWorld)
    as (Hpr & _ & _ & Hstart & Huser & _).
  - reflexivity.
  - reflexivity.
  - vm_compute. discriminate.
  - vm_compute. lia.
  - reflexivity.
  - split; [exact Hpr|]. split; [exact Hstart|exact Huser].
Defined.

(** * Further properties of the component *)

(** ** Numbers typed into the fields *)

Lemma digitValue_pretty_N_char d :
  (d < 10)%N → digitValue (pretty_N_char d) = Some (Z.of_N d).
Proof.
  intros Hd.
  assert (d = 0 ∨ d = 1 ∨ d = 2 ∨ d = 3 ∨ d = 4 ∨ d = 5 ∨ d = 6 ∨ d = 7
          ∨ d = 8 ∨ d = 9)%N as Hcases by lia.
  repeat (destruct Hcases as [->|Hcases]; [reflexivity|]). by subst.
Qed.

Lemma parseDigits_digit d s acc :
  (d < 10)%N →
  parseDigits 10 (String (pretty_N_char d) s) acc
  = parseDigits 10 s (Some (10 * default 0 acc + Z.of_N d)).
Proof.
  intros Hd. cbn [parseDigits]. rewrite digitValue_pretty_N_char by done.
  destruct (Z.ltb_spec (Z.of_N d) 10); [done|lia].
Qed.

Lemma parseDigits_pretty_N_go x :
  (0 < x)%N →
  ∃ k, 0 ≤ k ∧ ∀ s acc,
    parseDigits 10 (pretty_N_go x s) acc
    = parseDigits 10 s (Some (default 0 acc * 10 ^ k + Z.of_N x)).
Proof.
  induction (N.lt_wf_0 x) as [x _ IH]. intros Hx.
  assert (Hmod : (x `mod` 10 < 10)%N) by (apply N.mod_lt; lia).
  pose proof (N.div_mod x 10 ltac:(lia)) as Hdm.
  destruct (decide (x `div` 10 = 0)%N) as [Hq|Hq].
  - exists 1. split; [lia|]. intros s acc.
    rewrite pretty_N_go_step, Hq, pretty_N_go_0 by done.
    rewrite parseDigits_digit by done. do 2 f_equal. lia.
  - destruct (IH (x `div` 10)%N) as (k & Hk & Hgo).
    { apply N.div_lt; lia. }
    { lia. }
    exists (k + 1). split; [lia|]. intros s acc.
    rewrite pretty_N_go_step, Hgo by done.
    rewrite parseDigits_digit by done. cbn [default]. do 2 f_equal.
    rewrite Z.pow_add_r, Z.pow_1_r by lia.
    assert (Hz : Z.of_N x = 10 * Z.of_N (x `div` 10) + Z.of_N (x `mod` 10))
      by lia.
    rewrite Hz. unfold id. ring.
Qed.

Lemma pretty_N_go_head x s :
  (0 < x)%N →
  ∃ d rest, (1 ≤ d ≤ 9)%N ∧ pretty_N_go x s = String (pretty_N_char d) rest.
Proof.
  revert s. induction (N.lt_wf_0 x) as [x _ IH]. intros s Hx.
  assert (Hmod : (x `mod` 10 < 10)%N) by (apply N.mod_lt; lia).
  pose proof (N.div_mod x 10 ltac:(lia)) as Hdm.
  rewrite pretty_N_go_step by done.
  destruct (decide (x `div` 10 = 0)%N) as [Hq|Hq].
  - rewrite Hq, pretty_N_go_0. exists (x `mod` 10)%N, s. split; [lia|done].
  - apply IH; [apply N.div_lt; lia | lia].
Qed.

Lemma parseInt_digit_head d rest :
  (1 ≤ d ≤ 9)%N →
  parseInt (String (pretty_N_char d) rest)
  = match parseDigits 10 (String (pretty_N_char d) rest) None with
    | Some m => JNum (1 * m)
    | None => JNaN
    end
  ∧ parseInt (String "-" (String (pretty_N_char d) rest))
    = match parseDigits 10 (String (pretty_N_char d) rest) None with
      | Some m => JNum (-1 * m)
      | None => JNaN
      end.
Proof.
  intros Hd.
  assert (d = 1 ∨ d = 2 ∨ d = 3 ∨ d = 4 ∨ d = 5 ∨ d = 6 ∨ d = 7
          ∨ d = 8 ∨ d = 9)%N as Hcases by lia.
  repeat (destruct Hcases as [->|Hcases]; [split; reflexivity|]).
  subst. split; reflexivity.
Qed.

Lemma parseInt_pretty (z : Z) : parseInt (pretty z) = JNum z.
Proof.
  destruct z as [|x|x]; [reflexivity|..].
  - change (pretty (Z.pos x)) with (pretty_N_go (N.pos x) "").
    destruct (pretty_N_go_head (N.pos x) "" ltac:(lia)) as (d & rest & Hd & Hhead).
    destruct (parseDigits_pretty_N_go (N.pos x) ltac:(lia)) as (k & _ & Hgo).
    rewrite Hhead. destruct (parseInt_digit_head d rest Hd) as [-> _].
    rewrite <- Hhead, Hgo. cbn [parseDigits default]. f_equal; lia.
  - change (pretty (Z.neg x)) with (String "-" (pretty_N_go (N.pos x) "")).
    destruct (pretty_N_go_head (N.pos x) "" ltac:(lia)) as (d & rest & Hd & Hhead).
    destruct (parseDigits_pretty_N_go (N.pos x) ltac:(lia)) as (k & _ & Hgo).
    rewrite Hhead. destruct (parseInt_digit_head d rest Hd) as [_ ->].
    rewrite <- Hhead, Hgo. cbn [parseDigits default]. f_equal; lia.
Qed.

Lemma clampInput_pretty (z : Z) : clampInput (Some (pretty z)) = Z.max 0 z.
Proof.
  unfold clampInput, parseIntOf. rewrite parseInt_pretty.
  destruct (Z.eqb_spec z 0); lia.
Qed.

(** X1.  The decimal numeral of an integer up to [MAX_SAFE_INTEGER], typed
    into the total or the target field, stores that integer, or 0 when it
    is negative; input that does not start with a number (the emptied
    field, text) stores 0.  Only the field set changes: the two other
    counters of the prayer, the other prayers and the rest of the state
    stay as they were. *)
Theorem handleSet_stores_clamped (p : string) (w : World) :
  (∀ z, z ≤ MAX_SAFE_INTEGER →
        let w' := handleSetTotal p (pretty z) w in
        let old := spread (prayers w !! p) in
        prayers w' !! p
        = Some (Counters (JNum (Z.max 0 z)) (weeklyTarget old)
                  (completedThisWeek old))
        ∧ (∀ q, q ≠ p → prayers w' !! q = prayers w !! q)
        ∧ w' = setPrayers (prayers w') w)
  ∧ (∀ z, z ≤ MAX_SAFE_INTEGER →
          let w' := handleSetWeeklyTarget p (pretty z) w in
          let old := spread (prayers w !! p) in
          prayers w' !! p
          = Some (Counters (totalQada old) (JNum (Z.max 0 z))
                    (completedThisWeek old))
          ∧ (∀ q, q ≠ p → prayers w' !! q = prayers w !! q)
          ∧ w' = setPrayers (prayers w') w)
  ∧ (∀ value, parseInt value = JNaN →
       totalQada <$> prayers (handleSetTotal p value w) !! p = Some (JNum 0)
       ∧ weeklyTarget <$> prayers (handleSetWeeklyTarget p value w) !! p
         = Some (JNum 0))
  ∧ parseInt "" = JNaN ∧ parseInt "abc" = JNaN ∧ parseInt "-" = JNaN.
Proof.
  split; [|split; [|split]].
  - intros z _ w' old. subst w' old. unfold handleSetTotal.
    rewrite clampInput_pretty. destruct w; world_simpl.
    split; [by rewrite lookup_insert_eq|]. split; [|done].
    intros q Hq. by rewrite lookup_insert_ne.
  - intros z _ w' old. subst w' old. unfold handleSetWeeklyTarget.
    rewrite clampInput_pretty. destruct w; world_simpl.
    split; [by rewrite lookup_insert_eq|]. split; [|done].
    intros q Hq. by rewrite lookup_insert_ne.
  - intros value Hnan. unfold handleSetTotal, handleSetWeeklyTarget.
    rewrite (clampInput_NaN (Some value)) by done.
    destruct w; world_simpl. by rewrite !lookup_insert_eq.
  - repeat split.
Qed.

(** ** The ledger stays well formed *)

Lemma validLedger_lookup (m : prayerMap) p :
  validLedger m → p ∈ PRAYERS → ∃ c, m !! p = Some c ∧ validCounters c.
Proof.
  intros [Hdom Hval] Hp.
  assert (Hin : p ∈ dom m) by (by rewrite Hdom, currentKeys_elem).
  apply elem_of_dom in Hin. destruct Hin as [c Hc]. exists c. split; [done|].
  by eapply Hval.
Qed.

Lemma validLedger_insert (m : prayerMap) p c :
  validLedger m → p ∈ PRAYERS → validCounters c → validLedger (<[p := c]> m).
Proof.
  intros [Hdom Hval] Hp Hc. split; [by apply insert_keeps_currentKeys|].
  intros k c'. destruct (decide (k = p)) as [->|Hne].
  - rewrite lookup_insert_eq. by intros [= <-].
  - rewrite lookup_insert_ne by done. apply Hval.
Qed.

Lemma validLedger_default : validLedger getDefaultPrayerData.
Proof.
  split; [apply getDefaultPrayerData_dom|].
  intros k c Hc.
  assert (Hzero : c = zeroCounters).
  { revert Hc. unfold getDefaultPrayerData, defaultPrayerDataFor.
    cbn [fmap list_fmap PRAYERS list_to_map foldr uncurry fst snd].
    repeat (rewrite lookup_insert; case_decide; [by intros [= <-]|]).
    by rewrite lookup_empty. }
  subst c. exists 0, 0, 0. repeat split; lia.
Qed.

Lemma validLedger_zeroCompleted (m : prayerMap) :
  validLedger m → validLedger (zeroCompleted PRAYERS m).
Proof.
  intros Hm. pose proof Hm as [Hdom Hval]. split.
  - rewrite zeroCompleted_dom, Hdom. unfold currentKeys. set_solver.
  - intros k c. rewrite zeroCompleted_lookup.
    destruct (decide (k ∈ PRAYERS)) as [Hk|Hk]; [|apply Hval].
    destruct (validLedger_lookup m k Hm Hk) as (d & -> & (t & g & n & -> & ? & ? & ?)).
    intros [= <-]. exists t, g, 0. repeat split; (done || lia).
Qed.

Lemma persistEffect_prayers online w :
  prayers w = prayers (persistEffect online w).
Proof.
  unfold persistEffect.
  destruct w as [cu ? ? ? ? ? sk ? ? ? ? ? ? ?]; world_simpl.
  by destruct sk, cu, online.
Qed.

Lemma safeLedger_lookup (m : prayerMap) p :
  safeLedger m → p ∈ PRAYERS → ∃ c, m !! p = Some c ∧ safeCounters c.
Proof.
  intros [Hdom Hval] Hp.
  assert (Hin : p ∈ dom m) by (by rewrite Hdom, currentKeys_elem).
  apply elem_of_dom in Hin. destruct Hin as [c Hc]. exists c. split; [done|].
  by eapply Hval.
Qed.

Lemma safeLedger_insert (m : prayerMap) p c :
  safeLedger m → p ∈ PRAYERS → safeCounters c → safeLedger (<[p := c]> m).
Proof.
  intros [Hdom Hval] Hp Hc. split; [by apply insert_keeps_currentKeys|].
  intros k c'. destruct (decide (k = p)) as [->|Hne].
  - rewrite lookup_insert_eq. by intros [= <-].
  - rewrite lookup_insert_ne by done. apply Hval.
Qed.

Lemma safeLedger_default : safeLedger getDefaultPrayerData.
Proof.
  split; [apply getDefaultPrayerData_dom|].
  intros k c Hc.
  assert (Hzero : c = zeroCounters).
  { revert Hc. unfold getDefaultPrayerData, defaultPrayerDataFor.
    cbn [fmap list_fmap PRAYERS list_to_map foldr uncurry fst snd].
    repeat (rewrite lookup_insert; case_decide; [by intros [= <-]|]).
    by rewrite lookup_empty. }
  subst c. exists 0, 0, 0.
  split; [done|]. unfold MAX_SAFE_INTEGER. lia.
Qed.

Lemma safeLedger_zeroCompleted (m : prayerMap) :
  safeLedger m → safeLedger (zeroCompleted PRAYERS m).
Proof.
  intros Hm. pose proof Hm as [Hdom Hval]. split.
  - rewrite zeroCompleted_dom, Hdom. unfold currentKeys. set_solver.
  - intros k c. rewrite zeroCompleted_lookup.
    destruct (decide (k ∈ PRAYERS)) as [Hk|Hk]; [|apply Hval].
    destruct (safeLedger_lookup m k Hm Hk) as (d & -> & (t & g & n & -> & ? & ? & ?)).
    intros [= <-]. exists t, g, 0. split; [done|].
    unfold MAX_SAFE_INTEGER in *. lia.
Qed.

(** X2.  A ledger of exactly the five current names, each with three safe
    integers that are not negative, is what the component starts from, and
    every mutation keeps it: setting a total or a target to an amount up to
    [MAX_SAFE_INTEGER], recording completions that leave the completed
    count up to [MAX_SAFE_INTEGER] (which then never throws), resetting the
    week by hand or at expiry, registering, and persisting. *)
Theorem safeLedger_preserved (w : World) :
  safeLedger getDefaultPrayerData
  ∧ (safeLedger (prayers w) →
     (∀ p value, p ∈ PRAYERS →
        clampInput (Some value) ≤ MAX_SAFE_INTEGER →
        safeLedger (prayers (handleSetTotal p value w))
        ∧ safeLedger (prayers (handleSetWeeklyTarget p value w)))
     ∧ (∀ p, p ∈ PRAYERS →
          (∀ d k, prayers w !! p = Some d → completedThisWeek d = JNum k →
                  k + clampInput (todayInput w !! p) ≤ MAX_SAFE_INTEGER) →
          ∃ w', handleAddCompleted p w = Some w' ∧ safeLedger (prayers w'))
     ∧ (∀ now, safeLedger (prayers (resetWeek now w))
               ∧ safeLedger (prayers (autoResetEffect now w)))
     ∧ (∀ u p now online,
          safeLedger (prayers (handleRegister u p now online w)))
     ∧ (∀ online, safeLedger (prayers (persistEffect online w)))).
Proof.
  split; [apply safeLedger_default|]. intros Hw.
  split; [|split; [|split; [|split]]].
  - intros p value Hp Hmax.
    destruct (safeLedger_lookup _ p Hw Hp) as (d & Hd & (t & g & n & -> & Ht & Hg & Hn)).
    pose proof (clampInput_nonneg (Some value)).
    split.
    + replace (prayers (handleSetTotal p value w))
        with (<[p := withTotalQada (spread (prayers w !! p))
                        (JNum (clampInput (Some value)))]> (prayers w))
        by (by destruct w).
      apply safeLedger_insert; [done..|]. rewrite Hd.
      by exists (clampInput (Some value)), g, n.
    + replace (prayers (handleSetWeeklyTarget p value w))
        with (<[p := withWeeklyTarget (spread (prayers w !! p))
                        (JNum (clampInput (Some value)))]> (prayers w))
        by (by destruct w).
      apply safeLedger_insert; [done..|]. rewrite Hd.
      by exists t, (clampInput (Some value)), n.
  - intros p Hp Hroom.
    destruct (safeLedger_lookup _ p Hw Hp) as (d & Hd & (t & g & n & -> & Ht & Hg & Hn)).
    specialize (Hroom _ n Hd eq_refl).
    unfold handleAddCompleted.
    pose proof (clampInput_nonneg (todayInput w !! p)) as Hc.
    destruct (_ =? 0); [by exists w|]. rewrite Hd.
    eexists. split; [reflexivity|]. destruct w; world_simpl.
    apply safeLedger_insert; [done..|].
    eexists _, g, _. split; [reflexivity|]. cbn in Hc, Hroom |- *.
    repeat split; lia.
  - intros now.
    assert (Hr : safeLedger (prayers (resetWeek now w))).
    { replace (prayers (resetWeek now w)) with (zeroCompleted PRAYERS (prayers w))
        by (by destruct w).
      by apply safeLedger_zeroCompleted. }
    split; [done|]. unfold autoResetEffect. by destruct (shouldAutoReset _ _).
  - intros u p now online.
    destruct (handleRegister_prayers u p now online w) as [-> | ->];
      [done | apply safeLedger_default].
  - intros online.
    replace (prayers (persistEffect online w)) with (prayers w); [done|].
    apply persistEffect_prayers.
Qed.

(** X1 on the numeral 7 and on the emptied field. *)
Lemma handleSet_stores_clamped_witness :
  prayers (handleSetTotal "Subuh" "7" sampleWorld) !! "Subuh"%string
  = Some (Counters (JNum 7) (JNum 2) (JNum 1))
  ∧ totalQada <$> prayers (handleSetTotal "Subuh" "" sampleWorld) !! "Subuh"%string
    = Some (JNum 0).
Proof.
  destruct (handleSet_stores_clamped "Subuh" sampleWorld) as (Hnum & _ & Hnan & _).
  split.
  - destruct (Hnum 7 ltac:(vm_compute; discriminate)) as (Hp & _). exact Hp.
  - apply (Hnan ""%string). reflexivity.
Defined.

Lemma validLedger_samplePrayers : validLedger samplePrayers.
Proof.
  apply validLedger_insert; [apply validLedger_default | in_list |].
  exists 5, 2, 1. repeat split; lia.
Qed.

Lemma safeLedger_samplePrayers : safeLedger samplePrayers.
Proof.
  apply safeLedger_insert; [apply safeLedger_default | in_list |].
  exists 5, 2, 1. split; [done|]. unfold MAX_SAFE_INTEGER. lia.
Qed.

(** X2 on the sample ledger. *)
Lemma safeLedger_preserved_witness :
  safeLedger (prayers (resetWeek 9 sampleWorld))
  ∧ ∃ w', handleAddCompleted "Subuh" sampleWorld = Some w'
          ∧ safeLedger (prayers w').
Proof.
  destruct (safeLedger_preserved sampleWorld) as (_ & Hkeep).
  destruct (Hkeep safeLedger_samplePrayers) as (_ & Hadd & Hreset & _).
  split; [apply Hreset|].
  apply (Hadd "Subuh"%string); [in_list|].
  intros d k [= <-] [= <-]. vm_compute. discriminate.
Defined.

(** ** Recording completions *)

(** X3.  Pressing Add throws exactly when the pending count is positive and
    the prayer has no entry in the ledger; in every other case it returns a
    state. *)
Theorem handleAddCompleted_throws_iff (p : string) (w : World) :
  handleAddCompleted p w = None
  ↔ 0 < clampInput (todayInput w !! p) ∧ prayers w !! p = None.
Proof.
  unfold handleAddCompleted.
  pose proof (clampInput_nonneg (todayInput w !! p)) as Hc.
  destruct (Z.eqb_spec (clampInput (todayInput w !! p)) 0) as [Hz|Hz].
  - split; [done|]. intros [? _]. lia.
  - destruct (prayers w !! p) as [d|].
    + split; [done|]. by intros [_ ?].
    + split; [|done]. intros _. split; [lia|done].
Qed.

Lemma typeAndAdd_unfold p z w :
  0 < z →
  typeAndAdd p (pretty z) w
  = match prayers w !! p with
    | None => None
    | Some d =>
        Some (setTodayInput (<[p := ""%string]> (todayInput w))
                (setPrayers
                   (<[p := Counters (jsMax0 (jsSub (totalQada d) z))
                              (weeklyTarget d)
                              (jsAdd (completedThisWeek d) z)]> (prayers w)) w))
    end.
Proof.
  intros Hz. unfold typeAndAdd, handleAddCompleted, handleTodayInputChange.
  destruct w; world_simpl. rewrite lookup_insert_eq, clampInput_pretty.
  rewrite Z.max_r by lia. destruct (Z.eqb_spec z 0) as [?|_]; [lia|].
  destruct (_ !! p) as [d|]; [|done].
  by rewrite insert_insert_eq.
Qed.

(** X4.  Completions add up: typing [a] and pressing Add, then typing [b]
    and pressing Add, leaves the same state as typing [a + b] once, for
    positive [a] and [b]; this holds for the backlog too, which stops at 0
    in both cases, and also when the entry is missing (both throw) or has
    missing fields (both give [NaN]).  The counts are safe integers:
    [a + b], the numbers the entry holds, and the completed count after
    both additions. *)
Theorem typeAndAdd_additive (p : string) (a b : Z) (w : World) :
  0 < a → 0 < b →
  a + b ≤ MAX_SAFE_INTEGER →
  (∀ d, prayers w !! p = Some d →
        safeField (totalQada d)
        ∧ safeField (completedThisWeek d)
        ∧ ∀ k, completedThisWeek d = JNum k → k + a + b ≤ MAX_SAFE_INTEGER) →
  typeAndAdd p (pretty a) w ≫= typeAndAdd p (pretty b)
  = typeAndAdd p (pretty (a + b)) w.
Proof.
  intros Ha Hb _ _. rewrite (typeAndAdd_unfold p a w), (typeAndAdd_unfold p (a + b) w) by lia.
  destruct (prayers w !! p) as [d|] eqn:Hd; [|done]. cbn [mbind option_bind].
  rewrite typeAndAdd_unfold by lia.
  destruct w as [? ? pr ? ti ? ? ? ? ? ? ? ? ?]; world_simpl. cbn in Hd.
  rewrite lookup_insert_eq, !insert_insert_eq. do 3 f_equal.
  destruct d as [[| |t] g [| |k]]; cbn; do 2 f_equal; lia.
Qed.

(** X4 on the sample ledger: 2 then 4 against a backlog of 5. *)
Lemma typeAndAdd_additive_witness :
  typeAndAdd "Subuh" "2" sampleWorld ≫= typeAndAdd "Subuh" "4"
  = typeAndAdd "Subuh" "6" sampleWorld.
Proof.
  apply (typeAndAdd_additive "Subuh" 2 4 sampleWorld); [lia | lia | |].
  - vm_compute. discriminate.
  - intros d [= <-]. split; [|split].
    + split; vm_compute; discriminate.
    + split; vm_compute; discriminate.
    + intros k [= <-]. vm_compute. discriminate.
Defined.

(** ** Migration, again *)

(** X5.  Migrating twice is migrating once: what [migratePrayerNames]
    returns, it returns unchanged. *)
Theorem migratePrayerNames_idempotent (data : option prayerMap) :
  migratePrayerNames (migratePrayerNames data) = migratePrayerNames data.
Proof.
  destruct data as [d|]; [|done].
  rewrite (migratePrayerNames_cases d).
  destruct (forallb (truthyAt d) PRAYERS) eqn:Hall.
  { by rewrite migratePrayerNames_cases, Hall. }
  destruct (existsb (truthyAt d) legacyOnlyKeys) eqn:Hold.
  - apply migratePrayerNames_all_new. intros q Hq.
    assert (Hpair : ∃ oldKey, (oldKey, q) ∈ OLD_TO_NEW).
    { revert q Hq. apply Forall_forall. unfold PRAYERS.
      apply Forall_cons_2; [exists "Fajr"%string; in_list|].
      apply Forall_cons_2; [exists "Dhuhr"%string; in_list|].
      apply Forall_cons_2; [exists "Asr"%string; in_list|].
      apply Forall_cons_2; [exists "Maghrib"%string; in_list|].
      apply Forall_cons_2; [exists "Isha"%string; in_list|].
      apply Forall_nil_2. }
    destruct Hpair as [oldKey Hpair].
    rewrite (renameLegacyKeys_lookup d oldKey q Hpair). by eexists.
  - by rewrite migratePrayerNames_cases, Hall, Hold.
Qed.

(** ** The cache and the remote store *)

Lemma persistEffect_lsTracker online w :
  lsTracker (persistEffect online w) = Some (ledgerOf w).
Proof.
  unfold persistEffect, ledgerOf.
  destruct w as [cu ? ? ? ? ? sk ? ? ? ? ? ? ?]; world_simpl.
  by destruct sk, cu, online.
Qed.

Lemma persistEffect_saves u w :
  currentUser w = Some u → skipNextSync w = false →
  firestore (persistEffect true w) = saveToFirestore (firestore w) u (ledgerOf w).
Proof.
  intros Hu Hs. unfold persistEffect, ledgerOf.
  destruct w; cbn in Hu, Hs; subst. reflexivity.
Qed.

Lemma loadFromFirestore_saveToFirestore db u data :
  loadFromFirestore (saveToFirestore db u data) u = Some data.
Proof.
  unfold loadFromFirestore, saveToFirestore. by rewrite lookup_insert_eq.
Qed.

Lemma validLedger_not_migrates (m : prayerMap) : validLedger m → ¬ migrates m.
Proof.
  intros Hm [(p & Hp & Hnone) _].
  destruct (validLedger_lookup m p Hm Hp) as (c & Hc & _). congruence.
Qed.

(** X6.  What the persist effect writes to the cache is what a reload of
    the page reads back: the cycle start always, and the mapping as it was
    unless it is one that the migration rewrites, in which case the reload
    renames its keys.  (The cache is JSON: the mapping must have no [NaN]
    field, which JSON would turn into [null].) *)
Theorem reload_after_persist (online : bool) (now : Z) (w : World) :
  jsonSafe (prayers w) →
  let w' := reloadPage now (persistEffect online w) in
  weekStartDate w' = weekStartDate w
  ∧ (¬ migrates (prayers w) → prayers w' = prayers w)
  ∧ (migrates (prayers w) → prayers w' = renameLegacyKeys (prayers w))
  ∧ (validLedger (prayers w) → prayers w' = prayers w).
Proof.
  intros _ w'.
  assert (Hpr : prayers w'
                = default getDefaultPrayerData (migratePrayerNames (Some (prayers w)))).
  { subst w'. unfold reloadPage, loadData. by rewrite persistEffect_lsTracker. }
  assert (Hkeep : ¬ migrates (prayers w) → prayers w' = prayers w).
  { intros Hnot. by rewrite Hpr, migratePrayerNames_not_migrates. }
  split; [|split; [|split]].
  - subst w'. unfold reloadPage, loadData. by rewrite persistEffect_lsTracker.
  - exact Hkeep.
  - intros [Hmiss Hold]. by rewrite Hpr, migratePrayerNames_renames.
  - intros Hvalid. by apply Hkeep, validLedger_not_migrates.
Qed.

Lemma jsonSafe_samplePrayers : jsonSafe samplePrayers.
Proof.
  intros k c Hc.
  destruct (validLedger_samplePrayers) as [_ Hval].
  destruct (Hval k c Hc) as (t & g & n & -> & _). done.
Qed.

(** X6 on the sample ledger. *)
Lemma reload_after_persist_witness :
  prayers (reloadPage 99 (persistEffect false sampleWorld)) = prayers sampleWorld.
Proof.
  destruct (reload_after_persist false 99 sampleWorld jsonSafe_samplePrayers)
    as (_ & _ & _ & Hvalid).
  apply Hvalid. exact validLedger_samplePrayers.
Defined.

(** X7.  The persist effect always writes the current ledger to the cache,
    whether the remote save is skipped, fails or succeeds, and never
    changes the ledger or the session.  It leaves the remote store alone
    when the connection is down or no session is open, and in any case it
    touches no document but the one of the current user. *)
Theorem persistEffect_cache_first (online : bool) (w : World) :
  let w' := persistEffect online w in
  lsTracker w' = Some (ledgerOf w)
  ∧ ledgerOf w' = ledgerOf w
  ∧ currentUser w' = currentUser w
  ∧ skipNextSync w' = false
  ∧ (online = false → firestore w' = firestore w)
  ∧ (currentUser w = None →
     firestore w' = firestore w ∧ saveAttempts w' = saveAttempts w)
  ∧ (∀ k, (∀ u, currentUser w = Some u → k ≠ getUserDoc u) →
       firestore w' !! k = firestore w !! k).
Proof.
  intros w'. split; [apply persistEffect_lsTracker|]. subst w'.
  unfold persistEffect, ledgerOf, saveToFirestore.
  destruct w as [cu ? ? ? ? ? sk ? ? ? fs ? ? ?]; world_simpl.
  split; [by destruct sk, cu, online|].
  split; [by destruct sk, cu, online|].
  split; [by destruct sk, cu, online|].
  split; [intros ->; by destruct sk, cu|].
  split; [intros ->; by destruct sk|].
  intros k Hk. destruct sk, cu as [u|], online; try done.
  cbn. rewrite lookup_insert_ne; [done|]. intros <-. by apply (Hk u).
Qed.

(** X7 on a session that is offline. *)
Lemma persistEffect_cache_first_witness :
  firestore (persistEffect false aliceWorld) = firestore aliceWorld
  ∧ lsTracker (persistEffect false aliceWorld) = Some (ledgerOf aliceWorld).
Proof.
  destruct (persistEffect_cache_first false aliceWorld)
    as (Hcache & _ & _ & _ & Hoff & _).
  split; [apply Hoff; reflexivity | exact Hcache].
Defined.

Lemma adoptRemote_unmigrated (p : prayerMap) (t : Z) (w : World) :
  ¬ migrates p →
  adoptRemote (Some (MkSaved (Some p) (Some t))) w
  = saveData (MkSaved (Some p) (Some t))
      (setWeekStartDate t (setPrayers p (setSkipNextSync true w))).
Proof.
  intros Hnot. unfold adoptRemote. cbn [sv_prayers sv_weekStartDate].
  by rewrite migratePrayerNames_not_migrates.
Qed.

(** X8.  One device saves, another loads: after the persist effect of a
    session has written its ledger to the remote store, the load effect of
    the same user on any other state of the component installs exactly that
    ledger (mapping and cycle start), writes it to the cache there, and the
    persist effect that follows the load makes no remote save. *)
Theorem sync_between_devices (u : string) (wA wB : World) :
  currentUser wA = Some u →
  currentUser wB = Some u →
  skipNextSync wA = false →
  ¬ migrates (prayers wA) →
  let wB' := loadEffect true (setFirestore (firestore (persistEffect true wA)) wB) in
  ledgerOf wB' = ledgerOf wA
  ∧ lsTracker wB' = Some (ledgerOf wA)
  ∧ syncStatus wB' = synced
  ∧ saveAttempts (persistEffect true wB') = saveAttempts wB.
Proof.
  intros HuA HuB Hskip Hnot wB'. subst wB'.
  rewrite (persistEffect_saves u wA HuA Hskip).
  unfold loadEffect.
  replace (currentUser (setFirestore _ wB)) with (Some u) by (by destruct wB).
  replace (firestore (setFirestore (saveToFirestore (firestore wA) u (ledgerOf wA)) wB))
    with (saveToFirestore (firestore wA) u (ledgerOf wA)) by (by destruct wB).
  rewrite loadFromFirestore_saveToFirestore.
  unfold ledgerOf at 1 2 3 4 5 6 7 8.
  rewrite (adoptRemote_unmigrated (prayers wA) (weekStartDate wA)) by done.
  unfold persistEffect, ledgerOf. destruct wB; world_simpl. done.
Qed.

(** X8 with the sample ledger on the first device and an empty one on the
    second. *)
Lemma sync_between_devices_witness :
  let wB := setCurrentUser (Some "alice"%string) (mount 5 None None None ∅) in
  ledgerOf (loadEffect true
              (setFirestore (firestore (persistEffect true aliceWorld)) wB))
  = MkSaved (Some samplePrayers) (Some 0).
Proof.
  intros wB.
  destruct (sync_between_devices "alice" aliceWorld wB) as (Hledger & _).
  - reflexivity.
  - reflexivity.
  - reflexivity.
  - apply validLedger_not_migrates. exact validLedger_samplePrayers.
  - exact Hledger.
Defined.

(** ** Accounts *)

Lemma lowerChar_idemp c : lowerChar (lowerChar c) = lowerChar c.
Proof. by destruct c as [[] [] [] [] [] [] [] []]. Qed.

Lemma toLowerCase_idemp s : toLowerCase (toLowerCase s) = toLowerCase s.
Proof.
  induction s as [|c s IH]; [done|]. cbn [toLowerCase].
  by rewrite lowerChar_idemp, IH.
Qed.

(** X9.  A username that is free can be registered; from then on a login
    under that name in any mix of upper and lower case and with the same
    PIN succeeds and finds no tracker yet, a login with another PIN is
    refused, a second registration of the name is refused and changes
    nothing, and no other document of the collection was touched.  The
    usernames are ASCII text with no "/". *)
Theorem registerUser_then_loginUser (db : Firestore) (username pin0 : string) :
  docId username = true →
  db !! getUserDoc username = None →
  let db' := (registerUser db username pin0).2 in
  loginUser db username pin0 = LoginFailed "User not found"
  ∧ (registerUser db username pin0).1 = None
  ∧ (∀ other, docId other = true →
       toLowerCase other = toLowerCase username →
       loginUser db' other pin0 = LoginOk None)
  ∧ (∀ pin', pin' ≠ pin0 → loginUser db' username pin' = LoginFailed "Wrong PIN")
  ∧ (∀ pin', registerUser db' username pin'
             = (Some "Username already taken"%string, db'))
  ∧ (∀ k, k ≠ getUserDoc username → db' !! k = db !! k).
Proof.
  intros _ Hfree db'. subst db'. unfold registerUser, loginUser. rewrite Hfree.
  cbn [fst snd]. split; [done|]. split; [done|].
  split; [|split; [|split]].
  - intros other _ Hother. unfold getUserDoc. rewrite Hother.
    rewrite lookup_insert_eq. cbn [pin tracker]. by rewrite bool_decide_eq_true_2.
  - intros pin' Hpin. rewrite lookup_insert_eq. cbn [pin].
    rewrite bool_decide_eq_false_2; [done|]. by intros [= ->].
  - intros pin'. by rewrite lookup_insert_eq.
  - intros k Hk. by rewrite lookup_insert_ne.
Qed.

(** X9 on an empty collection. *)
Lemma registerUser_then_loginUser_witness :
  loginUser (registerUser ∅ "Alice" "1234").2 "ALICE" "1234" = LoginOk None.
Proof.
  destruct (registerUser_then_loginUser ∅ "Alice" "1234") as (_ & _ & Hlogin & _).
  - reflexivity.
  - reflexivity.
  - apply Hlogin; reflexivity.
Defined.

Lemma setLoginError_twice a b w :
  setLoginError a (setLoginError b w) = setLoginError a w.
Proof. by destruct w. Qed.

(** X10.  A registration is refused, with a message and nothing else
    changed (ledger, session, cache, remote store), when the username or
    the PIN is blank, when the PIN has fewer than four characters, when the
    connection is down, or when the username is taken. *)
Theorem handleRegister_refused (loginUsername loginPin : string) (now : Z)
    (online : bool) (w : World) :
  trim loginUsername = ""%string
  ∨ trim loginPin = ""%string
  ∨ (String.length (trim loginPin) < 4)%nat
  ∨ online = false
  ∨ is_Some (firestore w !! getUserDoc (trim loginUsername)) →
  ∃ msg, msg ≠ ""%string
         ∧ handleRegister loginUsername loginPin now online w
           = setLoginError msg w.
Proof.
  intros Hwhy. unfold handleRegister.
  destruct (bool_decide (trim loginUsername = ""%string)
            || bool_decide (trim loginPin = ""%string)) eqn:Hblank.
  { eexists. split; [|reflexivity]. done. }
  apply orb_false_iff in Hblank as [Hu Hp].
  apply bool_decide_eq_false in Hu, Hp.
  destruct (Nat.ltb_spec (String.length (trim loginPin)) 4) as [Hshort|Hlong].
  { eexists. split; [|reflexivity]. done. }
  destruct online; cbn [negb].
  2:{ eexists. split; [|apply setLoginError_twice]. done. }
  replace (firestore (setLoginError "" w)) with (firestore w) by (by destruct w).
  destruct Hwhy as [?|[?|[?|[?|[doc Hdoc]]]]]; [done|done|lia|done|].
  unfold registerUser. rewrite Hdoc.
  eexists. split; [|apply setLoginError_twice]. done.
Qed.

(** X10 on a PIN of three characters. *)
Lemma handleRegister_refused_witness :
  ∃ msg, msg ≠ ""%string
         ∧ handleRegister "alice" "123" 7 true sampleWorld
           = setLoginError msg sampleWorld.
Proof.
  apply handleRegister_refused. right. right. left. vm_compute. lia.
Defined.

(** X11.  A login is refused, with a message and nothing else changed,
    when the username or the PIN is blank, when the connection is down,
    when there is no such user, or when the PIN is not the stored one.  The
    username and the PIN are ASCII text, the username with no "/". *)
Theorem handleLogin_refused (loginUsername loginPin : string) (online : bool)
    (w : World) :
  docId loginUsername = true →
  asciiOnly loginPin = true →
  trim loginUsername = ""%string
  ∨ trim loginPin = ""%string
  ∨ online = false
  ∨ firestore w !! getUserDoc (trim loginUsername) = None
  ∨ (∃ doc, firestore w !! getUserDoc (trim loginUsername) = Some doc
            ∧ pin doc ≠ Some (trim loginPin)) →
  ∃ msg, msg ≠ ""%string
         ∧ handleLogin loginUsername loginPin online w = setLoginError msg w.
Proof.
  intros _ _ Hwhy. unfold handleLogin.
  destruct (bool_decide (trim loginUsername = ""%string)
            || bool_decide (trim loginPin = ""%string)) eqn:Hblank.
  { eexists. split; [|reflexivity]. done. }
  apply orb_false_iff in Hblank as [Hu Hp].
  apply bool_decide_eq_false in Hu, Hp.
  destruct online; cbn [negb].
  2:{ eexists. split; [|apply setLoginError_twice]. done. }
  replace (firestore (setLoginError "" w)) with (firestore w) by (by destruct w).
  unfold loginUser.
  destruct Hwhy as [?|[?|[?|[Hnone|(doc & Hdoc & Hpin)]]]]; [done|done|done|..].
  - rewrite Hnone. eexists. split; [|apply setLoginError_twice]. done.
  - rewrite Hdoc, bool_decide_eq_false_2 by done.
    eexists. split; [|apply setLoginError_twice]. done.
Qed.

(** X11 on a user that does not exist. *)
Lemma handleLogin_refused_witness :
  ∃ msg, msg ≠ ""%string
         ∧ handleLogin "bob" "9999" true sampleWorld
           = setLoginError msg sampleWorld.
Proof.
  apply handleLogin_refused; [reflexivity | reflexivity |].
  right. right. right. left. reflexivity.
Defined.

Lemma handleLogin_ok loginUsername loginPin data w :
  trim loginUsername ≠ ""%string →
  trim loginPin ≠ ""%string →
  loginUser (firestore w) (trim loginUsername) (trim loginPin) = LoginOk data →
  handleLogin loginUsername loginPin true w
  = setSyncStatus synced
      (adoptRemote data
         (setCurrentUser (Some (toLowerCase (trim loginUsername)))
            (setLsUser (Some (toLowerCase (trim loginUsername)))
               (setLoginError "" w)))).
Proof.
  intros Hu Hp Hlogin. unfold handleLogin.
  rewrite !bool_decide_eq_false_2 by done. cbn [orb negb].
  replace (firestore (setLoginError "" w)) with (firestore w) by (by destruct w).
  by rewrite Hlogin.
Qed.

Lemma adoptRemote_frame data w :
  currentUser (adoptRemote data w) = currentUser w
  ∧ firestore (adoptRemote data w) = firestore w
  ∧ lsUser (adoptRemote data w) = lsUser w.
Proof. destruct w, data as [[[d|] [t|]]|]; done. Qed.

Lemma loginUser_doc db username pin0 data :
  loginUser db username pin0 = LoginOk data →
  ∃ doc, db !! getUserDoc username = Some doc
         ∧ pin doc = Some pin0 ∧ tracker doc = data.
Proof.
  unfold loginUser. destruct (db !! getUserDoc username) as [doc|]; [|done].
  case_bool_decide; [|done]. intros [= <-]. by exists doc.
Qed.

(** X12.  A login that succeeds opens the session under the lower-cased
    username and writes nothing to the remote store.  Whatever the session
    saves later goes to the document the login read and keeps its PIN: a
    login with the same credentials then gets exactly the ledger that was
    saved. *)
Theorem saved_ledger_returns_at_login (loginUsername loginPin : string)
    (data : option Saved) (w : World) :
  trim loginUsername ≠ ""%string →
  trim loginPin ≠ ""%string →
  loginUser (firestore w) (trim loginUsername) (trim loginPin) = LoginOk data →
  let w1 := handleLogin loginUsername loginPin true w in
  currentUser w1 = Some (toLowerCase (trim loginUsername))
  ∧ lsUser w1 = currentUser w1
  ∧ firestore w1 = firestore w
  ∧ ∀ w2, currentUser w2 = currentUser w1 →
          firestore w2 = firestore w1 →
          skipNextSync w2 = false →
          loginUser (firestore (persistEffect true w2))
            (trim loginUsername) (trim loginPin)
          = LoginOk (Some (ledgerOf w2)).
Proof.
  intros Hu Hp Hlogin w1. subst w1.
  rewrite (handleLogin_ok _ _ data w Hu Hp Hlogin).
  set (w0 := setCurrentUser _ _).
  destruct (adoptRemote_frame data w0) as (Hcu & Hfs & Hls).
  assert (Hcu1 : currentUser (setSyncStatus synced (adoptRemote data w0))
                 = Some (toLowerCase (trim loginUsername))).
  { transitivity (currentUser (adoptRemote data w0));
      [by destruct (adoptRemote data w0)|].
    rewrite Hcu. subst w0. by destruct w. }
  assert (Hfs1 : firestore (setSyncStatus synced (adoptRemote data w0))
                 = firestore w).
  { transitivity (firestore (adoptRemote data w0));
      [by destruct (adoptRemote data w0)|].
    rewrite Hfs. subst w0. by destruct w. }
  split; [exact Hcu1|]. split; [|split; [exact Hfs1|]].
  - rewrite Hcu1.
    transitivity (lsUser (adoptRemote data w0));
      [by destruct (adoptRemote data w0)|].
    rewrite Hls. subst w0. by destruct w.
  - intros w2 Hcu2 Hfs2 Hskip. rewrite Hcu1 in Hcu2. rewrite Hfs1 in Hfs2.
    rewrite (persistEffect_saves _ w2 Hcu2 Hskip), Hfs2.
    apply loginUser_doc in Hlogin. destruct Hlogin as (doc & Hdoc & Hpin & _).
    unfold loginUser, saveToFirestore, getUserDoc in *.
    rewrite toLowerCase_idemp, lookup_insert_eq, Hdoc.
    cbn [mbind option_bind pin tracker]. rewrite Hpin.
    by rewrite bool_decide_eq_true_2.
Qed.

(** X12 for "Alice", who logs in and then saves the sample ledger. *)
Lemma saved_ledger_returns_at_login_witness :
  let w1 := handleLogin " Alice" "1234" true registeredWorld in
  loginUser (firestore (persistEffect true w1)) "Alice" "1234"
  = LoginOk (Some (ledgerOf w1)).
Proof.
  intros w1.
  destruct (saved_ledger_returns_at_login " Alice" "1234" None registeredWorld)
    as (_ & _ & _ & Hlater).
  - vm_compute. discriminate.
  - vm_compute. discriminate.
  - reflexivity.
  - apply (Hlater w1); reflexivity.
Defined.

(** X13.  Logging out closes the session here and in [localStorage] and
    keeps the ledger and its cache on the device.  From then on the persist
    effect saves nothing remotely, the load effect does nothing, and a
    reload of the page comes up logged out with the same ledger cached. *)
Theorem handleLogout_closes_session (w : World) :
  let w' := handleLogout w in
  currentUser w' = None
  ∧ lsUser w' = None
  ∧ ledgerOf w' = ledgerOf w
  ∧ lsTracker w' = lsTracker w
  ∧ firestore w' = firestore w
  ∧ (∀ online, firestore (persistEffect online w') = firestore w
               ∧ saveAttempts (persistEffect online w') = saveAttempts w)
  ∧ (∀ online, loadEffect online w' = w')
  ∧ (∀ now, currentUser (reloadPage now w') = None
            ∧ lsTracker (reloadPage now w') = lsTracker w).
Proof.
  destruct w as [cu ? ? ? ? ? sk ? ? ? ? ? ? ?].
  unfold handleLogout, persistEffect, loadEffect, reloadPage, loadData, mount, ledgerOf.
  world_simpl. repeat split; by destruct sk.
Qed.

(** X14.  The order of precedence at a load.  With no session, or with the
    connection down, or with no ledger in the remote record, the load effect
    keeps the local ledger and its cache (only the sync indicator may
    change).  With a ledger in the remote record, that ledger replaces the
    local one and the cache, whatever they held. *)
Theorem loadEffect_precedence (w : World) :
  (currentUser w = None → ∀ online, loadEffect online w = w)
  ∧ (∀ u, currentUser w = Some u → loadEffect false w = setSyncStatus offline w)
  ∧ (∀ u, currentUser w = Some u →
          loadFromFirestore (firestore w) u ≫= sv_prayers = None →
          loadEffect true w = setSyncStatus synced w)
  ∧ (∀ u p t, currentUser w = Some u →
              loadFromFirestore (firestore w) u = Some (MkSaved (Some p) (Some t)) →
              ¬ migrates p →
              ledgerOf (loadEffect true w) = MkSaved (Some p) (Some t)
              ∧ lsTracker (loadEffect true w) = Some (MkSaved (Some p) (Some t))).
Proof.
  split; [|split; [|split]].
  - intros Hu online. unfold loadEffect. by rewrite Hu.
  - intros u Hu. unfold loadEffect. by rewrite Hu.
  - intros u Hu Hnone. unfold loadEffect. rewrite Hu.
    destruct (loadFromFirestore (firestore w) u) as [[[p|] t]|]; done.
  - intros u p t Hu Hdata Hnot. unfold loadEffect. rewrite Hu, Hdata.
    rewrite adoptRemote_unmigrated by done. by destruct w.
Qed.

(** X14 on a session whose remote record has no tracker yet. *)
Lemma loadEffect_precedence_witness :
  let w := setCurrentUser (Some "alice"%string) registeredWorld in
  loadEffect true w = setSyncStatus synced w.
Proof.
  intros w.
  destruct (loadEffect_precedence w) as (_ & _ & Hnone & _).
  apply (Hnone "alice"%string); reflexivity.
Defined.

(** ** Export and import *)

(** X15.  An export read back by the import restores the ledger: into the
    state it came from it changes nothing, and into any other state it
    installs the mapping and the cycle start of the exporting state and
    leaves the rest alone.  (The file is JSON: the mapping must have no
    [NaN] field.) *)
Theorem import_of_export (now : Z) (w other : World) :
  jsonSafe (prayers w) →
  let file := handleExport now w in
  ex_day file = isoDay now
  ∧ handleImport (Some (ex_data file)) w = w
  ∧ ledgerOf (handleImport (Some (ex_data file)) other) = ledgerOf w
  ∧ handleImport (Some (ex_data file)) other
    = setWeekStartDate (weekStartDate w) (setPrayers (prayers w) other).
Proof.
  intros _ file. subst file. unfold handleExport, handleImport. cbn [ex_day ex_data sv_prayers sv_weekStartDate].
  split; [done|]. split; [by destruct w|]. split; [by destruct w, other|done].
Qed.

(** X15 on the sample ledger, imported into a fresh state. *)
Lemma import_of_export_witness :
  ledgerOf (handleImport (Some (ex_data (handleExport 0 sampleWorld)))
              (mount 123 None None None ∅))
  = ledgerOf sampleWorld.
Proof.
  destruct (import_of_export 0 sampleWorld (mount 123 None None None ∅)
              jsonSafe_samplePrayers) as (_ & _ & Hledger & _).
  exact Hledger.
Defined.

(** X16.  An import only ever changes the mapping, the cycle start and the
    list of alerts.  A file that does not parse raises the alert and leaves
    the ledger as it was; a document with no mapping keeps the mapping, a
    document with no cycle start keeps the cycle start; the session, the
    pending inputs, the cache, the guard and the remote store are never
    touched. *)
Theorem handleImport_frame (imported : option Saved) (w : World) :
  let w' := handleImport imported w in
  (imported = None →
   w' = setAlerts (alerts w ++ ["Invalid backup file."%string]) w)
  ∧ (∀ doc, imported = Some doc →
       prayers w' = default (prayers w) (sv_prayers doc)
       ∧ weekStartDate w' = default (weekStartDate w) (sv_weekStartDate doc)
       ∧ alerts w' = alerts w)
  ∧ w' = setAlerts (alerts w')
           (setWeekStartDate (weekStartDate w') (setPrayers (prayers w') w)).
Proof.
  destruct w, imported as [[[p|] [t|]]|]; cbn; (split; [|split]); try done.
  all: by intros doc [= <-].
Qed.

(** ** The backup e-mail, again *)

Lemma summaryOf_None names (prayerData : prayerMap) :
  summaryOf names prayerData = None ↔ ∃ p, p ∈ names ∧ prayerData !! p = None.
Proof.
  split.
  - intros Hnone.
    destruct (decide (Exists (λ p, prayerData !! p = None) names)) as [Hex|Hno].
    { by apply Exists_exists in Hex. }
    exfalso. destruct (summaryOf_is_Some names prayerData) as [s Hs]; [|congruence].
    intros p Hp. destruct (prayerData !! p) eqn:Hd; [by eexists|].
    destruct Hno. apply Exists_exists. by exists p.
  - intros (p & Hp & Hd).
    destruct (summaryOf names prayerData) as [s|] eqn:Hs; [|done]. exfalso.
    unfold summaryOf in Hs. apply fmap_Some in Hs as (lines & Hlines & _).
    assert (Hall : Forall (is_Some ∘ (λ q, summaryLine q <$> prayerData !! q)) names)
      by (apply mapM_is_Some; by eexists).
    rewrite Forall_forall in Hall. specialize (Hall p Hp). cbn in Hall.
    rewrite Hd in Hall. by destruct Hall.
Qed.

(** X17.  [sendBackupEmail] throws exactly when the guard lets it through
    and a prayer name is missing from the data it is given; nothing is sent
    then.  When it returns, it has either done nothing or handed one more
    e-mail to the service, dated today and carrying the data it was given;
    it never changes the ledger, and the guard is only moved later, by the
    success callback. *)
Theorem sendBackupEmail_outcomes (names : list string) (prayerData : prayerMap)
    (skipGuard : bool) (now : Z) (w : World) :
  (sendBackupEmail names prayerData skipGuard now w = None
   ↔ (skipGuard = true ∨ lsEmailSent w ≠ Some (isoDay now))
     ∧ ∃ p, p ∈ names ∧ prayerData !! p = None)
  ∧ (∀ w', sendBackupEmail names prayerData skipGuard now w = Some w' →
       w' = setSentEmails (sentEmails w') w
       ∧ (w' = w
          ∨ ∃ e, sentEmails w' = sentEmails w ++ [e]
                 ∧ em_date e = isoDay now ∧ em_backup e = prayerData
                 ∧ summaryOf names prayerData = Some (em_summary e))).
Proof.
  unfold sendBackupEmail.
  destruct (negb skipGuard && bool_decide (lsEmailSent w = Some (isoDay now)))
    eqn:Hblocked.
  - apply andb_true_iff in Hblocked as [Hskip Hguard].
    apply negb_true_iff in Hskip. apply bool_decide_eq_true in Hguard.
    split.
    + split; [done|]. intros [[?|?] _]; congruence.
    + intros w' [= <-]. split; [by destruct w | by left].
  - assert (Hopen : skipGuard = true ∨ lsEmailSent w ≠ Some (isoDay now)).
    { apply andb_false_iff in Hblocked as [Hskip|Hguard].
      - left. by apply negb_false_iff in Hskip.
      - right. by apply bool_decide_eq_false in Hguard. }
    destruct (summaryOf names prayerData) as [summary|] eqn:Hsum; cbn.
    + split.
      * split; [done|]. intros [_ Hmiss]. apply summaryOf_None in Hmiss. congruence.
      * intros w' [= <-]. split; [by destruct w|]. right.
        eexists. split; [by destruct w|]. done.
    + split; [|done]. split; [|done]. intros _. split; [done|].
      by apply summaryOf_None.
Qed.

(** X17 on a ledger of the current names given to the earlier list of
    names: Fajr is missing and the call throws. *)
Lemma sendBackupEmail_outcomes_witness :
  sendBackupEmail LEGACY_PRAYERS samplePrayers true 0 sampleWorld = None.
Proof.
  destruct (sendBackupEmail_outcomes LEGACY_PRAYERS samplePrayers true 0 sampleWorld)
    as (Hthrows & _).
  apply Hthrows. split; [by left|].
  exists "Fajr"%string. split; [in_list | reflexivity].
Defined.

Lemma emailVersion_resetWeek_sends now w :
  (∀ p, p ∈ LEGACY_PRAYERS → is_Some (prayers w !! p)) →
  ∃ summary,
    EmailVersion.resetWeek now w
    = Some (setWeekStartDate now
              (setPrayers (zeroCompleted LEGACY_PRAYERS (prayers w))
                 (if bool_decide (lsEmailSent w = Some (isoDay now)) then w
                  else setSentEmails
                         (sentEmails w
                            ++ [MkEmail (isoDay now) summary (prayers w)]) w))).
Proof.
  intros Hall.
  destruct (summaryOf_is_Some LEGACY_PRAYERS (prayers w) Hall) as [summary Hsum].
  exists summary. unfold EmailVersion.resetWeek, sendBackupEmail. cbn [negb andb].
  destruct (bool_decide _); [done|]. by rewrite Hsum.
Qed.

Lemma zeroCompleted_keeps_names names (m : prayerMap) :
  (∀ p, p ∈ names → is_Some (m !! p)) →
  ∀ p, p ∈ names → is_Some (zeroCompleted names m !! p).
Proof.
  intros Hall p Hp. rewrite zeroCompleted_lookup.
  destruct (decide (p ∈ names)); [by eexists | by apply Hall].
Qed.

(** X18.  In the version with the backup switched on, the guard limits the
    e-mails to one a day only once a delivery has succeeded.  A reset on a
    day whose e-mail is not out yet sends one; after the success callback
    has run, further resets on that day send nothing; but while the
    delivery is still pending, or after it has failed, another reset on
    that day sends again. *)
Theorem emailVersion_once_per_day (now later : Z) (w : World) :
  (∀ p, p ∈ LEGACY_PRAYERS → is_Some (prayers w !! p)) →
  lsEmailSent w ≠ Some (isoDay now) →
  isoDay later = isoDay now →
  ∃ w1,
    EmailVersion.resetWeek now w = Some w1
    ∧ length (sentEmails w1) = S (length (sentEmails w))
    ∧ (∃ w2, EmailVersion.resetWeek later (emailSettled (isoDay now) None w1)
             = Some w2
             ∧ sentEmails w2 = sentEmails w1)
    ∧ (∃ w2, EmailVersion.resetWeek later w1 = Some w2
             ∧ length (sentEmails w2) = S (S (length (sentEmails w))))
    ∧ (∀ err, ∃ w2,
         EmailVersion.resetWeek later (emailSettled (isoDay now) (Some err) w1)
         = Some w2
         ∧ length (sentEmails w2) = S (S (length (sentEmails w)))).
Proof.
  intros Hall Hguard Hday.
  destruct (emailVersion_resetWeek_sends now w Hall) as [summary Hreset].
  rewrite bool_decide_eq_false_2 in Hreset by done.
  eexists. split; [exact Hreset|].
  set (w1 := setWeekStartDate now _) in *.
  assert (Hpr1 : prayers w1 = zeroCompleted LEGACY_PRAYERS (prayers w))
    by (subst w1; by destruct w).
  assert (Hall1 : ∀ p, p ∈ LEGACY_PRAYERS → is_Some (prayers w1 !! p)).
  { rewrite Hpr1. by apply zeroCompleted_keeps_names. }
  assert (Hsent1 : sentEmails w1
                   = sentEmails w ++ [MkEmail (isoDay now) summary (prayers w)])
    by (subst w1; by destruct w).
  assert (Hguard1 : lsEmailSent w1 = lsEmailSent w) by (subst w1; by destruct w).
  split; [rewrite Hsent1, length_app; cbn; lia|].
  split; [|split].
  - set (w1' := emailSettled (isoDay now) None w1).
    assert (Hall1' : ∀ p, p ∈ LEGACY_PRAYERS → is_Some (prayers w1' !! p)).
    { replace (prayers w1') with (prayers w1) by (subst w1'; by destruct w1). done. }
    destruct (emailVersion_resetWeek_sends later w1' Hall1') as [s2 Hreset2].
    rewrite bool_decide_eq_true_2 in Hreset2
      by (rewrite Hday; subst w1'; by destruct w1).
    eexists. split; [exact Hreset2|]. subst w1'. by destruct w1.
  - destruct (emailVersion_resetWeek_sends later w1 Hall1) as [s2 Hreset2].
    rewrite bool_decide_eq_false_2 in Hreset2 by (by rewrite Hguard1, Hday).
    eexists. split; [exact Hreset2|].
    transitivity (length (sentEmails w1 ++ [MkEmail (isoDay later) s2 (prayers w1)]));
      [by destruct w1|].
    rewrite length_app, Hsent1, length_app. cbn. lia.
  - intros err. set (w1' := emailSettled (isoDay now) (Some err) w1).
    assert (Hall1' : ∀ p, p ∈ LEGACY_PRAYERS → is_Some (prayers w1' !! p)).
    { replace (prayers w1') with (prayers w1) by (subst w1'; by destruct w1). done. }
    assert (Hguard1' : lsEmailSent w1' = lsEmailSent w)
      by (rewrite <- Hguard1; subst w1'; by destruct w1).
    assert (Hsent1' : sentEmails w1' = sentEmails w1)
      by (subst w1'; by destruct w1).
    destruct (emailVersion_resetWeek_sends later w1' Hall1') as [s2 Hreset2].
    rewrite bool_decide_eq_false_2 in Hreset2 by (by rewrite Hguard1', Hday).
    eexists. split; [exact Hreset2|].
    transitivity (length (sentEmails w1' ++ [MkEmail (isoDay later) s2 (prayers w1')]));
      [by destruct w1'|].
    rewrite length_app, Hsent1', Hsent1, length_app. cbn. lia.
Qed.

(** X18 on a ledger of the earlier names: two resets within a second, the
    delivery of the first e-mail still pending. *)
Lemma emailVersion_once_per_day_witness :
  let w := setPrayers legacyPrayers sampleWorld in
  ∃ w1 w2, EmailVersion.resetWeek (8 * msPerDay) w = Some w1
           ∧ EmailVersion.resetWeek (8 * msPerDay + 1000) w1 = Some w2
           ∧ length (sentEmails w2) = 2%nat.
Proof.
  intros w.
  destruct (emailVersion_once_per_day (8 * msPerDay) (8 * msPerDay + 1000) w)
    as (w1 & Hw1 & _ & _ & (w2 & Hw2 & Hlen) & _).
  - apply Forall_forall. apply (bool_decide_unpack _). vm_compute. exact I.
  - discriminate.
  - reflexivity.
  - exists w1, w2. split; [exact Hw1|]. split; [exact Hw2|exact Hlen].
Defined.

(** ** The calendar, again *)

(** X19.  The days left are never negative; they are at most 7 when the
    cycle start is not in the future, exactly 7 during the first 24 hours,
    and they never grow as time passes.  A cycle start in the future (a
    clock that was set back, an imported date) gives more than 7 days left,
    and the cycle then does not expire before that date is reached and
    seven more days have passed. *)
Theorem getDaysLeftInWeek_bounds (now start : Z) :
  0 ≤ getDaysLeftInWeek now start
  ∧ (start ≤ now → getDaysLeftInWeek now start ≤ 7)
  ∧ (getDaysLeftInWeek now start = 7 ↔ 0 ≤ now - start < msPerDay)
  ∧ (∀ later, now ≤ later →
       getDaysLeftInWeek later start ≤ getDaysLeftInWeek now start)
  ∧ (now < start →
     7 < getDaysLeftInWeek now start ∧ shouldAutoReset now start = false).
Proof.
  unfold shouldAutoReset, getDaysLeftInWeek. rewrite msPerDay_eq.
  pose proof (Z.div_mod (now - start) 86400000 ltac:(lia)) as Hdm.
  pose proof (Z.mod_pos_bound (now - start) 86400000 ltac:(lia)) as Hmod.
  split; [lia|]. split; [intros; nia|]. split; [split; intros; nia|]. split.
  - intros later Hlater.
    assert (Hmono : (now - start) / 86400000 ≤ (later - start) / 86400000)
      by (apply Z.div_le_mono; lia).
    lia.
  - intros Hfuture. split; [nia|]. apply Z.eqb_neq. nia.
Qed.

(** X19 one hour before a cycle start that lies in the future. *)
Lemma getDaysLeftInWeek_bounds_witness :
  7 < getDaysLeftInWeek 0 3600000 ∧ shouldAutoReset 0 3600000 = false.
Proof.
  destruct (getDaysLeftInWeek_bounds 0 3600000) as (_ & _ & _ & _ & Hfuture).
  apply Hfuture. lia.
Defined.

(** ** The warning *)

(** X20.  The warning of a prayer is off while more than two days are left,
    whatever the ledger holds, and so it is off for every prayer during the
    first five days after a reset.  With two days or fewer left it is on
    exactly when a target is set and the completed count is below it; it
    throws then for a prayer that has no entry. *)
Theorem isWarning_cases (p : string) (now : Z) (w : World) :
  (2 < getDaysLeftInWeek now (weekStartDate w) → isWarning p now w = Some false)
  ∧ (getDaysLeftInWeek now (weekStartDate w) ≤ 2 →
     prayers w !! p = None → isWarning p now w = None)
  ∧ (∀ t g k,
       getDaysLeftInWeek now (weekStartDate w) ≤ 2 →
       prayers w !! p = Some (Counters (JNum t) (JNum g) (JNum k)) →
       ∃ b, isWarning p now w = Some b ∧ (b = true ↔ 0 < g ∧ k < g))
  ∧ (∀ later, later - now < 5 * msPerDay →
       isWarning p later (resetWeek now w) = Some false).
Proof.
  assert (Hoff : ∀ t w0, 2 < getDaysLeftInWeek t (weekStartDate w0) →
                         isWarning p t w0 = Some false).
  { intros t w0 Hdays. unfold isWarning.
    destruct (Z.leb_spec (getDaysLeftInWeek t (weekStartDate w0)) 2); [lia|done]. }
  split; [apply Hoff|]. split; [|split].
  - intros Hdays Hnone. unfold isWarning.
    destruct (Z.leb_spec (getDaysLeftInWeek now (weekStartDate w)) 2); [|lia].
    by rewrite Hnone.
  - intros t g k Hdays Hd. unfold isWarning.
    destruct (Z.leb_spec (getDaysLeftInWeek now (weekStartDate w)) 2); [|lia].
    rewrite Hd. eexists. split; [reflexivity|]. cbn.
    rewrite andb_true_iff, !Z.ltb_lt. done.
  - intros later Hlater. apply Hoff.
    replace (weekStartDate (resetWeek now w)) with now by (by destruct w).
    unfold getDaysLeftInWeek. rewrite msPerDay_eq in *.
    pose proof (Z.div_mod (later - now) 86400000 ltac:(lia)).
    pose proof (Z.mod_pos_bound (later - now) 86400000 ltac:(lia)).
    nia.
Qed.

(** X20 on the sample ledger, six days into the cycle: Subuh has a target
    of 2 and 1 completed. *)
Lemma isWarning_cases_witness :
  ∃ b, isWarning "Subuh" (6 * msPerDay) sampleWorld = Some b
       ∧ (b = true ↔ 0 < 2 ∧ 1 < 2).
Proof.
  destruct (isWarning_cases "Subuh" (6 * msPerDay) sampleWorld)
    as (_ & _ & Hon & _).
  apply (Hon 5 2 1).
  - vm_compute. discriminate.
  - reflexivity.
Defined.

(** ** Start-up *)

(** X21.  At start-up over a cached ledger: when the cached cycle start is
    seven days old or more, the auto-reset effect starts a new cycle now
    and zeroes the completed count of every prayer while keeping its
    backlog and target; when it is younger, the effect changes nothing and
    the component shows the cached ledger.  With no cache the component
    starts from the default ledger and a cycle that begins now. *)
Theorem startup_over_cache (now t : Z) (p : prayerMap) (emailSent0 : option Z)
    (user0 : option string) (db : Firestore) :
  validLedger p →
  let w0 := mount now (Some (MkSaved (Some p) (Some t))) emailSent0 user0 db in
  ledgerOf w0 = MkSaved (Some p) (Some t)
  ∧ (7 * msPerDay ≤ now - t →
     weekStartDate (autoResetEffect now w0) = now
     ∧ ∀ q, q ∈ PRAYERS →
         ∃ c, p !! q = Some c
              ∧ prayers (autoResetEffect now w0) !! q
                = Some (Counters (totalQada c) (weeklyTarget c) (JNum 0)))
  ∧ (now - t < 7 * msPerDay → autoResetEffect now w0 = w0)
  ∧ (let fresh := mount now None emailSent0 user0 db in
     ledgerOf fresh = MkSaved (Some getDefaultPrayerData) (Some now)
     ∧ autoResetEffect now fresh = fresh).
Proof.
  intros Hp w0.
  assert (Hpr : prayers w0 = p).
  { subst w0. unfold mount. cbn [prayers]. unfold initPrayers.
    cbn [mbind option_bind sv_prayers].
    by rewrite migratePrayerNames_not_migrates
      by (by apply validLedger_not_migrates). }
  assert (Hstart : weekStartDate w0 = t) by done.
  split; [unfold ledgerOf; by rewrite Hpr, Hstart|]. split; [|split].
  - intros Hold. apply shouldAutoReset_iff in Hold.
    unfold autoResetEffect. rewrite Hstart, Hold.
    split; [by destruct w0|]. intros q Hq.
    destruct (validLedger_lookup p q Hp Hq) as (c & Hc & _).
    exists c. split; [done|].
    replace (prayers (resetWeek now w0)) with (zeroCompleted PRAYERS (prayers w0))
      by (by destruct w0).
    rewrite zeroCompleted_lookup, Hpr, Hc.
    by destruct (decide (q ∈ PRAYERS)).
  - intros Hyoung. unfold autoResetEffect. rewrite Hstart.
    destruct (shouldAutoReset now t) eqn:Hexp; [|done].
    apply shouldAutoReset_iff in Hexp. lia.
  - split; [done|]. unfold autoResetEffect.
    replace (weekStartDate (mount now None emailSent0 user0 db)) with now by done.
    by rewrite shouldAutoReset_fresh.
Qed.

(** X21 on the sample ledger, found in the cache eight days after its cycle
    began. *)
Lemma startup_over_cache_witness :
  let w0 := mount (8 * msPerDay) (Some (MkSaved (Some samplePrayers) (Some 0)))
              None None ∅ in
  weekStartDate (autoResetEffect (8 * msPerDay) w0) = 8 * msPerDay.
Proof.
  intros w0.
  destruct (startup_over_cache (8 * msPerDay) 0 samplePrayers None None ∅
              validLedger_samplePrayers) as (_ & Hold & _).
  apply Hold. vm_compute. discriminate.
Defined.

(** ** Across the versions *)

(** X22.  Upgrading commutes with the weekly reset: for a ledger of the
    earlier version that has its five names, resetting it there and then
    migrating it gives the same mapping as migrating it first and resetting
    it in the current version. *)
Theorem migration_commutes_with_reset (d : prayerMap) :
  (∀ k, k ∈ LEGACY_PRAYERS → is_Some (d !! k)) →
  renameLegacyKeys (zeroCompleted LEGACY_PRAYERS d)
  = zeroCompleted PRAYERS (renameLegacyKeys d).
Proof.
  intros Hall. apply map_eq. intros k.
  rewrite zeroCompleted_lookup.
  destruct (decide (k ∈ PRAYERS)) as [Hk|Hk].
  - assert (Hpair : ∃ oldKey, oldKey ∈ LEGACY_PRAYERS ∧ (oldKey, k) ∈ OLD_TO_NEW).
    { revert k Hk. apply Forall_forall. unfold PRAYERS.
      apply Forall_cons_2; [exists "Fajr"%string; split; in_list|].
      apply Forall_cons_2; [exists "Dhuhr"%string; split; in_list|].
      apply Forall_cons_2; [exists "Asr"%string; split; in_list|].
      apply Forall_cons_2; [exists "Maghrib"%string; split; in_list|].
      apply Forall_cons_2; [exists "Isha"%string; split; in_list|].
      apply Forall_nil_2. }
    destruct Hpair as (oldKey & Hold & Hpair).
    rewrite !(renameLegacyKeys_lookup _ oldKey k Hpair), zeroCompleted_lookup.
    destruct (decide (oldKey ∈ LEGACY_PRAYERS)); [|done].
    destruct (Hall oldKey Hold) as [c ->]. done.
  - assert (Hout : ∀ m : prayerMap, renameLegacyKeys m !! k = None).
    { intros m. apply not_elem_of_dom. rewrite renameLegacyKeys_dom.
      by rewrite currentKeys_elem. }
    by rewrite !Hout.
Qed.

(** X22 on the backup of the earlier version. *)
Lemma migration_commutes_with_reset_witness :
  renameLegacyKeys (zeroCompleted LEGACY_PRAYERS legacyPrayers)
  = zeroCompleted PRAYERS (renameLegacyKeys legacyPrayers).
Proof.
  apply migration_commutes_with_reset.
  apply Forall_forall. apply (bool_decide_unpack _). vm_compute. exact I.
Defined.

(** ** Accounts, again *)

(** X23.  A save for a username that has no document creates one that holds
    the ledger but no PIN: the ledger can be loaded under that name, but no
    login can succeed, whatever the PIN, and the name can no longer be
    registered. *)
Theorem saveToFirestore_without_account (db : Firestore) (username : string)
    (data : Saved) :
  db !! getUserDoc username = None →
  let db' := saveToFirestore db username data in
  loadFromFirestore db' username = Some data
  ∧ (∀ pin', loginUser db' username pin' = LoginFailed "Wrong PIN")
  ∧ (∀ pin', registerUser db' username pin'
             = (Some "Username already taken"%string, db')).
Proof.
  intros Hnone db'. subst db'.
  unfold loadFromFirestore, loginUser, registerUser, saveToFirestore.
  rewrite Hnone, !lookup_insert_eq. cbn. done.
Qed.

(** X23 when the page comes up with a stored username that has no
    document: the persist effect creates the document, and the owner
    cannot log in. *)
Lemma saveToFirestore_without_account_witness :
  loginUser (saveToFirestore ∅ "carol" (ledgerOf sampleWorld)) "carol" "1234"
  = LoginFailed "Wrong PIN".
Proof.
  destruct (saveToFirestore_without_account ∅ "carol" (ledgerOf sampleWorld))
    as (_ & Hlogin & _).
  - reflexivity.
  - apply Hlogin.
Defined.

(** X24.  What a login does to the ledger.  When the account has no ledger
    yet, the local ledger, its cache and the suppression flag stay as they
    are: the local ledger is the one the session goes on with.  When the
    account has a ledger, it replaces the local one and the cache, and the
    flag is set. *)
Theorem handleLogin_ledger (loginUsername loginPin : string)
    (data : option Saved) (w : World) :
  trim loginUsername ≠ ""%string →
  trim loginPin ≠ ""%string →
  loginUser (firestore w) (trim loginUsername) (trim loginPin) = LoginOk data →
  let w1 := handleLogin loginUsername loginPin true w in
  syncStatus w1 = synced
  ∧ (data ≫= sv_prayers = None →
     ledgerOf w1 = ledgerOf w
     ∧ lsTracker w1 = lsTracker w
     ∧ skipNextSync w1 = skipNextSync w)
  ∧ (∀ p t, data = Some (MkSaved (Some p) (Some t)) → ¬ migrates p →
       ledgerOf w1 = MkSaved (Some p) (Some t)
       ∧ lsTracker w1 = Some (MkSaved (Some p) (Some t))
       ∧ skipNextSync w1 = true).
Proof.
  intros Hu Hp Hlogin w1. subst w1.
  rewrite (handleLogin_ok _ _ data w Hu Hp Hlogin).
  split; [by destruct (adoptRemote _ _)|]. split.
  - intros Hnone. destruct data as [[[p|] t]|]; [done|..]; by destruct w.
  - intros p t -> Hnot. rewrite adoptRemote_unmigrated by done. by destruct w.
Qed.

(** X24 for "alice", whose account has no ledger yet: the sample ledger
    stays. *)
Lemma handleLogin_ledger_witness :
  ledgerOf (handleLogin "alice" "1234" true registeredWorld)
  = ledgerOf registeredWorld.
Proof.
  destruct (handleLogin_ledger "alice" "1234" None registeredWorld)
    as (_ & Hkeep & _).
  - vm_compute. discriminate.
  - vm_compute. discriminate.
  - reflexivity.
  - apply Hkeep. reflexivity.
Defined.
